(** * Lending library: the service layer and its MongoDB access layer

    A shallow embedding of [lending-library.ts] (class [LendingLibrary])
    and [library-dao.ts] (class [LibraryDao]).

    - JavaScript values of the untyped request records are an inductive
      type; a finite number is written as the rational it is equal to,
      beside NaN and the two infinities.  The integers kept in a book
      are binary64 values: what [addBook] reads is taken to the nearest
      one, and [$inc] rounds its sum ([Js.binary64]); the exponent
      range of a double is not modelled.
    - Strings are sequences of UTF-8 bytes.
    - The two MongoDB collections are lists of documents in natural
      (insertion) order; every driver call the source awaits is one
      store call that may throw, driven by a schedule of faults.
    - [async] methods are computations in a state-and-exception monad,
      [try { ... } catch (error) { ... }] is [try_catch]. *)

From Stdlib Require Import ZArith QArith Bool List String Ascii Lia.
From Stdlib Require Import Sorted Permutation.
Import ListNotations.

Local Open Scope string_scope.
Local Open Scope Z_scope.

Set Warnings "-register-all".

(** ** JavaScript values *)

Module Js.

(** A JavaScript number: a finite value, NaN, +Infinity or -Infinity. *)
Inductive num : Type :=
| Fin (q : Q)
| NaN
| PInf
| NInf.

Definition of_Z (z : Z) : num := Fin (inject_Z z).

(** [a < b] *)
Definition lt (a b : num) : bool :=
  match a, b with
  | NaN, _ | _, NaN => false
  | Fin x, Fin y => negb (Qle_bool y x)
  | Fin _, PInf => true
  | NInf, Fin _ => true
  | NInf, PInf => true
  | _, _ => false
  end.

(** [a <= b] *)
Definition le (a b : num) : bool :=
  match a, b with
  | NaN, _ | _, NaN => false
  | Fin x, Fin y => Qle_bool x y
  | PInf, PInf | NInf, NInf => true
  | Fin _, PInf => true
  | NInf, Fin _ => true
  | NInf, PInf => true
  | _, _ => false
  end.

(** [a > b] and [a >= b] *)
Definition gt (a b : num) : bool := lt b a.
Definition ge (a b : num) : bool := le b a.

(** [Number.isInteger(a)], with the integer when there is one. *)
Definition to_integer (a : num) : option Z :=
  match a with
  | Fin q =>
      if (Qnum q mod Zpos (Qden q) =? 0) then Some (Qnum q / Zpos (Qden q))
      else None
  | _ => None
  end.

Definition isInteger (a : num) : bool :=
  match to_integer a with Some _ => true | None => false end.

(** The binary64 number nearest to the integer [z], ties to the even
    significand: every integer up to 2^53 in magnitude is one; beyond,
    53 significant bits are kept. *)
Definition binary64 (z : Z) : Z :=
  let a := Z.abs z in
  if a <=? 2 ^ 53 then z
  else
    let unit := 2 ^ (Z.log2 a - 52) in
    let q := a / unit in
    let r := a mod unit in
    let q' :=
      if 2 * r <? unit then q
      else if unit <? 2 * r then q + 1
      else if Z.even q then q else q + 1 in
    Z.sgn z * (q' * unit).

Inductive value : Type :=
| Undefined
| Null
| Bool (b : bool)
| Num (n : num)
| Str (s : string)
| Arr (elems : list value)
| Obj.

(** The results of [typeof] that the source compares against. *)
Inductive type_tag : Type :=
| TUndefined | TObject | TBoolean | TNumber | TString.

Definition typeof (v : value) : type_tag :=
  match v with
  | Undefined => TUndefined
  | Null => TObject
  | Bool _ => TBoolean
  | Num _ => TNumber
  | Str _ => TString
  | Arr _ => TObject
  | Obj => TObject
  end.

(** Truthiness, as used by [!v] and [if (v)]. *)
Definition truthy (v : value) : bool :=
  match v with
  | Undefined | Null => false
  | Bool b => b
  | Num (Fin q) => negb (Qeq_bool q 0)
  | Num NaN => false
  | Num _ => true
  | Str s => negb (s =? "")%string
  | Arr _ | Obj => true
  end.

(** A request record [Record<string, any>]: own properties in order. *)
Definition object : Type := list (string * value).

Fixpoint own (o : object) (k : string) : option value :=
  match o with
  | [] => None
  | (k', v) :: o' => if (k' =? k)%string then Some v else own o' k
  end.

(** [k in o] *)
Definition has (o : object) (k : string) : bool :=
  match own o k with Some _ => true | None => false end.

(** [o.k] *)
Definition get (o : object) (k : string) : value :=
  match own o k with Some v => v | None => Undefined end.

End Js.

(** ** Characters and strings *)

Definition is_digit (c : ascii) : bool :=
  let n := nat_of_ascii c in (48 <=? n)%nat && (n <=? 57)%nat.

Definition is_upper (c : ascii) : bool :=
  let n := nat_of_ascii c in (65 <=? n)%nat && (n <=? 90)%nat.

Definition is_lower (c : ascii) : bool :=
  let n := nat_of_ascii c in (97 <=? n)%nat && (n <=? 122)%nat.

(** [\w] *)
Definition is_word (c : ascii) : bool :=
  is_digit c || is_upper c || is_lower c || (c =? "_")%char.

(** White space and line terminators of one byte: U+0009 to U+000D and
    U+0020. *)
Definition is_space (c : ascii) : bool :=
  let n := nat_of_ascii c in
  ((9 <=? n)%nat && (n <=? 13)%nat) || (n =? 32)%nat.

Definition byte_is (n : nat) (c : ascii) : bool := (nat_of_ascii c =? n)%nat.

(** The second and third byte of a white space character of three
    bytes that starts with E2: U+2000 to U+200A, U+2028, U+2029, U+202F
    and U+205F. *)
Definition is_space_E2 (c1 c2 : ascii) : bool :=
  let n := nat_of_ascii c2 in
  (byte_is 128 c1
   && (((128 <=? n)%nat && (n <=? 138)%nat)
       || (n =? 168)%nat || (n =? 169)%nat || (n =? 175)%nat))
  || (byte_is 129 c1 && (n =? 159)%nat).

(** The string is made of the characters that [trim()] removes: the
    white space and the line terminators of ECMAScript, which beside
    those of one byte are U+00A0, U+1680, the ones that start with E2,
    U+3000 and U+FEFF. *)
Fixpoint all_space (s : string) : bool :=
  match s with
  | EmptyString => true
  | String c rest =>
      if is_space c then all_space rest
      else
        match rest with
        | String c1 rest1 =>
            if byte_is 194 c then byte_is 160 c1 && all_space rest1
            else
              match rest1 with
              | String c2 rest2 =>
                  ((byte_is 225 c && byte_is 154 c1 && byte_is 128 c2)
                   || (byte_is 226 c && is_space_E2 c1 c2)
                   || (byte_is 227 c && byte_is 128 c1 && byte_is 128 c2)
                   || (byte_is 239 c && byte_is 187 c1 && byte_is 191 c2))
                  && all_space rest2
              | EmptyString => false
              end
        | EmptyString => false
        end
  end.

(** The line feed, which [.] of a [$regex] does not match. *)
Definition is_newline (c : ascii) : bool := (nat_of_ascii c =? 10)%nat.

Definition to_lower (c : ascii) : ascii :=
  if is_upper c then ascii_of_nat (nat_of_ascii c + 32) else c.

Fixpoint all_chars (p : ascii -> bool) (s : string) : bool :=
  match s with
  | EmptyString => true
  | String c s' => p c && all_chars p s'
  end.

(** [s.trim() === ''] *)
Definition trim_is_empty (s : string) : bool := all_space s.

(** [/^\d{3}-\d{3}-\d{3}-\d{1}$/.test(s)] *)
Definition isbn_format (s : string) : bool :=
  match list_ascii_of_string s with
  | [a1; a2; a3; h1; b1; b2; b3; h2; c1; c2; c3; h3; d1] =>
      forallb is_digit [a1; a2; a3; b1; b2; b3; c1; c2; c3; d1]
      && forallb (fun c => (c =? "-")%char) [h1; h2; h3]
  | _ => false
  end.

(** ** Results ([Errors.Result] of cs544-js-utils) *)

Inductive code : Type := MISSING | BAD_TYPE | BAD_REQ | DB.

Inductive Result (A : Type) : Type :=
| okResult (val : A)
| errResult (message : string) (c : code).

Arguments okResult {A} val.
Arguments errResult {A} message c.

Definition isOk {A} (r : Result A) : bool :=
  match r with okResult _ => true | errResult _ _ => false end.

(** The code of a failed result. *)
Definition err_code {A} (r : Result A) : option code :=
  match r with okResult _ => None | errResult _ c => Some c end.

Definition code_eqb (a b : code) : bool :=
  match a, b with
  | MISSING, MISSING | BAD_TYPE, BAD_TYPE | BAD_REQ, BAD_REQ | DB, DB => true
  | _, _ => false
  end.

(** ** Documents and collections *)

(** [Lib.XBook] as [LendingLibrary.addBook] builds it: [pages] and
    [nCopies] have passed [Number.isInteger] and are binary64 integers,
    [year] has only passed the range test and stays a number. *)
Record XBook : Type := mkXBook {
  isbn : string;
  title : string;
  pages : Z;
  authors : list string;
  publisher : string;
  year : Js.num;
  nCopies : Z
}.

Record Patron : Type := mkPatron {
  id : string;
  checkedOutBooks : list string
}.

(** The database: collection ['books'] and collection ['patrons'],
    each in natural order. *)
Record Db : Type := mkDb {
  booksCollection : list XBook;
  patronCollection : list Patron
}.

Definition empty_db : Db := mkDb [] [].

(** ** Asynchronous computations over the store

    A computation runs in a world made of the database and the schedule
    of faults of the coming store calls ([true]: that call throws; an
    exhausted schedule means no more faults).  What was written before
    an exception stays written. *)

Record World : Type := mkWorld {
  db : Db;
  faults : list bool
}.

Inductive outcome (A : Type) : Type :=
| Returned (a : A)
| Thrown (message : string).

Arguments Returned {A} a.
Arguments Thrown {A} message.

Definition IO (A : Type) : Type := World -> outcome A * World.

Definition ret {A} (a : A) : IO A := fun w => (Returned a, w).

Definition bind {A B} (m : IO A) (k : A -> IO B) : IO B :=
  fun w =>
    match m w with
    | (Returned a, w') => k a w'
    | (Thrown e, w') => (Thrown e, w')
    end.

(** [try { m } catch (error) { handler(error.message) }] *)
Definition try_catch {A} (m : IO A) (handler : string -> IO A) : IO A :=
  fun w =>
    match m w with
    | (Returned a, w') => (Returned a, w')
    | (Thrown e, w') => handler e w'
    end.

Notation "x <- m ;; k" := (bind m (fun x => k))
  (at level 61, m at next level, right associativity).
Notation "m ;;; k" := (bind m (fun _ => k))
  (at level 61, right associativity).

(** One awaited driver call: it throws when the schedule says so, and
    otherwise acts on the database (and may throw by itself). *)
Definition store_call {A} (f : Db -> outcome A * Db) : IO A :=
  fun w =>
    match faults w with
    | true :: fs => (Thrown "store failure", mkWorld (db w) fs)
    | false :: fs => let (o, d) := f (db w) in (o, mkWorld d fs)
    | [] => let (o, d) := f (db w) in (o, mkWorld d [])
    end.

Definition result_of {A} (r : outcome A * World) : outcome A := fst r.
Definition db_of {A} (r : outcome A * World) : Db := db (snd r).

(** ** The MongoDB driver calls the source uses *)

(** Query [{ $regex: pattern, $options: 'i' }] for the patterns the
    source builds: word characters and [.*]. *)
Inductive re_item : Type :=
| Lit (c : ascii)
| AnyStar.

Fixpoint parse_regex (pattern : string) : list re_item :=
  match pattern with
  | String "." (String "*" rest) => AnyStar :: parse_regex rest
  | String c rest => Lit c :: parse_regex rest
  | EmptyString => []
  end.

(** The pattern matches a prefix of [s], letters compared without case. *)
Fixpoint match_here (re : list re_item) (s : string) {struct re} : bool :=
  match re with
  | [] => true
  | Lit c :: re' =>
      match s with
      | String x s' => (to_lower c =? to_lower x)%char && match_here re' s'
      | EmptyString => false
      end
  | AnyStar :: re' =>
      (fix star (s : string) : bool :=
         match_here re' s
         || match s with
            | String x s' => negb (is_newline x) && star s'
            | EmptyString => false
            end) s
  end.

(** The unanchored pattern matches somewhere in [s]. *)
Fixpoint regex_test (re : list re_item) (s : string) : bool :=
  match_here re s
  || match s with
     | String _ s' => regex_test re s'
     | EmptyString => false
     end.

(** A [$regex] on a string field, and on an array field (some element
    matches). *)
Definition regex_query (pattern : string) (field : string) : bool :=
  regex_test (parse_regex pattern) field.

Definition regex_query_array (pattern : string) (field : list string) : bool :=
  existsb (regex_test (parse_regex pattern)) field.

(** [sort({ title: 1 })]: ascending by code units, documents with equal
    titles kept in natural order. *)
Fixpoint insert_by_title (b : XBook) (sorted : list XBook) : list XBook :=
  match sorted with
  | [] => [b]
  | x :: rest =>
      if String.leb (title b) (title x) then b :: x :: rest
      else x :: insert_by_title b rest
  end.

Definition sort_by_title (l : list XBook) : list XBook :=
  fold_right insert_by_title [] l.

(** The argument of [skip] and [limit] as the server takes it.  The
    service passes numbers that are not negative; the server refuses
    one that is not an integer. *)
Definition cursor_arg (n : Js.num) : option nat :=
  match Js.to_integer n with
  | Some z => if 0 <=? z then Some (Z.to_nat z) else None
  | None => None
  end.

(** [limit(n)]; a limit of 0 is no limit. *)
Definition limit {A} (n : nat) (l : list A) : list A :=
  match n with
  | O => l
  | _ => firstn n l
  end.

(** First document satisfying [p] replaced by [f] of it, as [updateOne]
    does. *)
Fixpoint update_one {A} (p : A -> bool) (f : A -> A) (l : list A) : list A :=
  match l with
  | [] => []
  | x :: rest => if p x then f x :: rest else x :: update_one p f rest
  end.

Definition has_isbn (i : string) (b : XBook) : bool := (isbn b =? i)%string.
Definition has_id (p : string) (x : Patron) : bool := (id x =? p)%string.

(** [$inc: { nCopies: delta }] on one book: a sum of binary64
    numbers. *)
Definition inc_nCopies (delta : Z) (b : XBook) : XBook :=
  mkXBook (isbn b) (title b) (pages b) (authors b) (publisher b) (year b)
          (Js.binary64 (nCopies b + delta)).

(** [$addToSet] and [$pull] on [checkedOutBooks]. *)
Definition addToSet (i : string) (l : list string) : list string :=
  if existsb (String.eqb i) l then l else l ++ [i].

Definition pull (i : string) (l : list string) : list string :=
  filter (fun x => negb (x =? i)%string) l.

(** What the successful writes do to the database. *)

(** [$inc: { nCopies: delta }] on the first book with this isbn. *)
Definition inc_copies (i : string) (delta : Z) (d : Db) : Db :=
  mkDb (update_one (has_isbn i) (inc_nCopies delta) (booksCollection d))
       (patronCollection d).

Definition insert_book (book : XBook) (d : Db) : Db :=
  mkDb (booksCollection d ++ [book]) (patronCollection d).

(** [$addToSet: { checkedOutBooks: i }] on the first patron with this
    id, with [upsert: true]: a missing patron is created holding [i]. *)
Definition add_hold (p i : string) (d : Db) : Db :=
  mkDb (booksCollection d)
       (if existsb (has_id p) (patronCollection d)
        then update_one (has_id p)
               (fun x => mkPatron (id x) (addToSet i (checkedOutBooks x)))
               (patronCollection d)
        else patronCollection d ++ [mkPatron p [i]]).

(** [$pull: { checkedOutBooks: i }] on the first patron with this id. *)
Definition remove_hold (p i : string) (d : Db) : Db :=
  mkDb (booksCollection d)
       (update_one (has_id p)
          (fun x => mkPatron (id x) (pull i (checkedOutBooks x)))
          (patronCollection d)).

Module Books.

(** [booksCollection.findOne({ isbn })] *)
Definition findOne (i : string) : IO (option XBook) :=
  store_call (fun d => (Returned (find (has_isbn i) (booksCollection d)), d)).

(** [booksCollection.updateOne({ isbn }, { $inc: { nCopies: delta } })],
    returning [matchedCount]. *)
Definition updateOne_inc (i : string) (delta : Z) : IO nat :=
  store_call (fun d =>
    (Returned (if existsb (has_isbn i) (booksCollection d) then 1%nat else 0%nat),
     inc_copies i delta d)).

(** [booksCollection.insertOne(book)] under the unique index on [isbn]
    that [LibraryDao.make] creates. *)
Definition insertOne (book : XBook) : IO unit :=
  store_call (fun d =>
    if existsb (has_isbn (isbn book)) (booksCollection d)
    then (Thrown "E11000 duplicate key error", d)
    else (Returned tt, insert_book book d)).

(** [booksCollection.find({ $or: [{ title: re }, { authors: re }] })
      .skip(index).limit(count).sort({ title: 1 }).toArray()]:
    the cursor sorts, then skips, then limits, whatever the order of
    the calls that set it up.  [pattern] is [None] for [undefined]. *)
Definition find_page (pattern : option string) (index count : Js.num)
  : IO (list XBook) :=
  store_call (fun d =>
    match pattern, cursor_arg index, cursor_arg count with
    | Some re, Some skip, Some lim =>
        (Returned
           (limit lim
              (skipn skip
                 (sort_by_title
                    (filter (fun b => regex_query re (title b)
                                      || regex_query_array re (authors b))
                            (booksCollection d))))), d)
    | _, _, _ => (Thrown "bad query", d)
    end).

(** [booksCollection.deleteMany({})] *)
Definition deleteMany : IO unit :=
  store_call (fun d => (Returned tt, mkDb [] (patronCollection d))).

End Books.

Module Patrons.

(** [patronCollection.findOne({ id: patronId })] *)
Definition findOne (p : string) : IO (option Patron) :=
  store_call (fun d => (Returned (find (has_id p) (patronCollection d)), d)).

(** [patronCollection.updateOne({ id }, { $addToSet: { checkedOutBooks:
    isbn } }, { upsert: true })] *)
Definition updateOne_addToSet (p i : string) : IO unit :=
  store_call (fun d =>
    (Returned tt, add_hold p i d)).

(** [patronCollection.updateOne({ id }, { $pull: { checkedOutBooks:
    isbn } })] *)
Definition updateOne_pull (p i : string) : IO unit :=
  store_call (fun d =>
    (Returned tt, remove_hold p i d)).

(** [patronCollection.deleteMany({})] *)
Definition deleteMany : IO unit :=
  store_call (fun d => (Returned tt, mkDb (booksCollection d) [])).

End Patrons.

(** ** library-dao.ts *)

Module LibraryDao.

Definition addBook (book : XBook) : IO (Result XBook) :=
  try_catch
    (existingBook <- Books.findOne (isbn book) ;;
     match existingBook with
     | Some _ =>
         matchedCount <- Books.updateOne_inc (isbn book) (nCopies book) ;;
         if (matchedCount =? 0)%nat
         then ret (errResult "Failed to update book copies" DB)
         else ret (okResult book)
     | None =>
         Books.insertOne book ;;;
         ret (okResult book)
     end)
    (fun message => ret (errResult message DB)).

(** [searchWords.length > 1 ? searchWords.join('.*') : searchWords[0]] *)
Definition multiWordSearch (searchWords : list string) : option string :=
  if (1 <? List.length searchWords)%nat
  then Some (String.concat ".*" searchWords)
  else nth_error searchWords 0.

Definition findBooksBySearch (searchWords : list string)
    (index count : Js.num) : IO (Result (list XBook)) :=
  try_catch
    (rawBooks <- Books.find_page (multiWordSearch searchWords) index count ;;
     let books :=
       map (fun doc => mkXBook (isbn doc) (title doc) (pages doc)
                         (authors doc) (publisher doc) (year doc)
                         (nCopies doc)) rawBooks in
     ret (okResult books))
    (fun message => ret (errResult message DB)).

Definition checkoutBook (patronId i : string) : IO (Result unit) :=
  try_catch
    (book <- Books.findOne i ;;
     match book with
     | None => ret (errResult "Book not found" BAD_REQ)
     | Some book =>
         if nCopies book <=? 0
         then ret (errResult "No copies available for checkout" BAD_REQ)
         else
           patron <- Patrons.findOne patronId ;;
           if match patron with
              | Some patron => existsb (String.eqb i) (checkedOutBooks patron)
              | None => false
              end
           then ret (errResult "Patron already checked out this book" BAD_REQ)
           else
             Books.updateOne_inc i (-1) ;;;
             Patrons.updateOne_addToSet patronId i ;;;
             ret (okResult tt)
     end)
    (fun message => ret (errResult message DB)).

Definition returnBook (patronId i : string) : IO (Result unit) :=
  try_catch
    (patron <- Patrons.findOne patronId ;;
     if match patron with
        | Some patron => negb (existsb (String.eqb i) (checkedOutBooks patron))
        | None => true
        end
     then ret (errResult
                 "No record of this book being checked out by the patron"
                 BAD_REQ)
     else
       Books.updateOne_inc i 1 ;;;
       Patrons.updateOne_pull patronId i ;;;
       ret (okResult tt))
    (fun message => ret (errResult message DB)).

Definition clearDatabase : IO (Result unit) :=
  try_catch
    (Books.deleteMany ;;;
     Patrons.deleteMany ;;;
     ret (okResult tt))
    (fun message => ret (errResult message DB)).

End LibraryDao.

(** ** lending-library.ts *)

(** [s.match(/\w{2,}/g) || []]: the maximal runs of word characters of
    length at least 2, left to right.  [run] is the run being read,
    last character first. *)
Definition flush_run (run : list ascii) : list string :=
  if (2 <=? List.length run)%nat then [string_of_list_ascii (rev run)] else [].

Fixpoint scan_words (s : string) (run : list ascii) : list string :=
  match s with
  | EmptyString => flush_run run
  | String c rest =>
      if is_word c then scan_words rest (c :: run)
      else flush_run run ++ scan_words rest []
  end.

Definition match_words (s : string) : list string := scan_words s [].

Module LendingLibrary.

Definition DEFAULT_COUNT : Z := 5.

Definition requiredFields : list string :=
  ["isbn"; "title"; "pages"; "authors"; "publisher"; "year"; "nCopies"].

(** Reading a field whose type has been tested. *)
Definition is_type (t : Js.type_tag) (v : Js.value) : bool :=
  match Js.typeof v, t with
  | Js.TUndefined, Js.TUndefined | Js.TObject, Js.TObject
  | Js.TBoolean, Js.TBoolean | Js.TNumber, Js.TNumber
  | Js.TString, Js.TString => true
  | _, _ => false
  end.

Definition str_of (v : Js.value) : string :=
  match v with Js.Str s => s | _ => "" end.

Definition num_of (v : Js.value) : Js.num :=
  match v with Js.Num n => n | _ => Js.NaN end.

(** The integer a number holds, as the binary64 value it is. *)
Definition int_of (v : Js.value) : Z :=
  match Js.to_integer (num_of v) with
  | Some z => Js.binary64 z
  | None => 0
  end.

Definition isArray (v : Js.value) : bool :=
  match v with Js.Arr _ => true | _ => false end.

Definition elems_of (v : Js.value) : list Js.value :=
  match v with Js.Arr l => l | _ => [] end.

(** [typeof v !== 'number' || !Number.isInteger(v) || v <= 0] *)
Definition not_positive_integer (v : Js.value) : bool :=
  negb (is_type Js.TNumber v)
  || negb (Js.isInteger (num_of v))
  || Js.le (num_of v) (Js.of_Z 0).

(** [a => typeof a !== 'string' || a.trim() === ''] *)
Definition bad_author (a : Js.value) : bool :=
  negb (is_type Js.TString a) || trim_is_empty (str_of a).

(** The checks of [addBook] before the DAO is called: the error
    returned, or the book built from the request.  [currentYear] is
    [new Date().getFullYear()]. *)
Definition validateBook (currentYear : Z) (req : Js.object)
  : Result XBook :=
  if existsb (fun field => negb (Js.has req field)) requiredFields then
    errResult "Missing required field: ${field}" MISSING
  else if negb (is_type Js.TString (Js.get req "isbn")) then
    errResult "ISBN must be a string" BAD_TYPE
  else if negb (isbn_format (str_of (Js.get req "isbn"))) then
    errResult "Invalid ISBN format, must be in ISBN-10 format: ddd-ddd-ddd-d"
              BAD_REQ
  else if negb (is_type Js.TString (Js.get req "title")) then
    errResult "Title must be a string" BAD_TYPE
  else if trim_is_empty (str_of (Js.get req "title")) then
    errResult "Title cannot be empty" BAD_REQ
  else if not_positive_integer (Js.get req "pages") then
    errResult "Pages must be a positive integer" BAD_TYPE
  else if negb (isArray (Js.get req "authors")) then
    errResult "Authors must be an array" BAD_TYPE
  else if (List.length (elems_of (Js.get req "authors")) =? 0)%nat
          || existsb bad_author (elems_of (Js.get req "authors")) then
    errResult "Authors array cannot be empty or contain an empty author"
              BAD_REQ
  else if negb (is_type Js.TString (Js.get req "publisher")) then
    errResult "Publisher must be a string" BAD_TYPE
  else if trim_is_empty (str_of (Js.get req "publisher")) then
    errResult "Publisher cannot be empty" BAD_REQ
  else if negb (is_type Js.TNumber (Js.get req "year")) then
    errResult "Year must be a number" BAD_TYPE
  else if Js.lt (num_of (Js.get req "year")) (Js.of_Z 1448)
          || Js.gt (num_of (Js.get req "year")) (Js.of_Z currentYear) then
    errResult "Year must be in range [1448, currentYear]" BAD_REQ
  else if not_positive_integer (Js.get req "nCopies") then
    errResult "nCopies must be a positive integer" BAD_TYPE
  else
    okResult
      {| isbn := str_of (Js.get req "isbn");
         title := str_of (Js.get req "title");
         pages := int_of (Js.get req "pages");
         authors := map str_of (elems_of (Js.get req "authors"));
         publisher := str_of (Js.get req "publisher");
         year := num_of (Js.get req "year");
         nCopies := int_of (Js.get req "nCopies") |}.

Definition addBook (currentYear : Z) (req : Js.object)
  : IO (Result XBook) :=
  try_catch
    (match validateBook currentYear req with
     | errResult message c => ret (errResult message c)
     | okResult book =>
         result <- LibraryDao.addBook book ;;
         ret result
     end)
    (fun message => ret (errResult message DB)).

Definition findBooks (req : Js.object) : IO (Result (list XBook)) :=
  try_catch
    (if negb (Js.truthy (Js.get req "search"))
        || negb (is_type Js.TString (Js.get req "search")) then
       ret (errResult "Search field is missing or not a string" MISSING)
     else
       let index :=
         if is_type Js.TNumber (Js.get req "index")
            && Js.ge (num_of (Js.get req "index")) (Js.of_Z 0)
         then num_of (Js.get req "index") else Js.of_Z 0 in
       let count :=
         if is_type Js.TNumber (Js.get req "count")
            && Js.ge (num_of (Js.get req "count")) (Js.of_Z 0)
         then num_of (Js.get req "count") else Js.of_Z DEFAULT_COUNT in
       let searchWords := match_words (str_of (Js.get req "search")) in
       if (List.length searchWords =? 0)%nat then
         ret (errResult "No valid search words found" BAD_REQ)
       else
         books <- LibraryDao.findBooksBySearch searchWords index count ;;
         ret books)
    (fun message => ret (errResult message DB)).

Definition checkoutBook (req : Js.object) : IO (Result unit) :=
  try_catch
    (let patronId := Js.get req "patronId" in
     let i := Js.get req "isbn" in
     if negb (Js.truthy patronId) || negb (is_type Js.TString patronId) then
       ret (errResult "Missing or invalid patronId" MISSING)
     else if negb (Js.truthy i) || negb (is_type Js.TString i) then
       ret (errResult "Missing or invalid ISBN" MISSING)
     else
       result <- LibraryDao.checkoutBook (str_of patronId) (str_of i) ;;
       if negb (isOk result) then
         ret (errResult "Issue checking out this book" BAD_REQ)
       else ret (okResult tt))
    (fun message => ret (errResult message DB)).

Definition returnBook (req : Js.object) : IO (Result unit) :=
  try_catch
    (let patronId := Js.get req "patronId" in
     let i := Js.get req "isbn" in
     if negb (Js.truthy patronId) || negb (is_type Js.TString patronId) then
       ret (errResult "Missing or invalid patronId" MISSING)
     else if negb (Js.truthy i) || negb (is_type Js.TString i) then
       ret (errResult "Missing or invalid ISBN" MISSING)
     else
       result <- LibraryDao.returnBook (str_of patronId) (str_of i) ;;
       if negb (isOk result) then
         ret (errResult "Issue returning this book" BAD_REQ)
       else ret (okResult tt))
    (fun message => ret (errResult message DB)).

Definition clear : IO (Result unit) :=
  try_catch
    (LibraryDao.clearDatabase ;;;
     ret (okResult tt))
    (fun message => ret (errResult message DB)).

(** [a !== b] on numbers. *)
Definition num_differ (a b : Js.num) : bool :=
  match a, b with
  | Js.Fin x, Js.Fin y => negb (Qeq_bool x y)
  | Js.PInf, Js.PInf | Js.NInf, Js.NInf => false
  | _, _ => true
  end.

(** [book0.authors.some((a, i) => a !== book1.authors[i])] *)
Fixpoint authors_differ (authors0 authors1 : list string) : bool :=
  match authors0 with
  | [] => false
  | a :: rest0 =>
      match authors1 with
      | [] => true
      | b :: rest1 => negb (a =? b)%string || authors_differ rest0 rest1
      end
  end.

(** The utility function [compareBook]: a field where the two books
    differ, [None] for [undefined].  No method of the class calls it. *)
Definition compareBook (book0 book1 : XBook) : option string :=
  if negb (title book0 =? title book1)%string then Some "title"
  else if authors_differ (authors book0) (authors book1) then Some "authors"
  else if negb (pages book0 =? pages book1) then Some "pages"
  else if num_differ (year book0) (year book1) then Some "year"
  else if negb (publisher book0 =? publisher book1)%string then Some "publisher"
  else None.

End LendingLibrary.

(** ** Sequences of operations *)

Inductive Op : Type :=
| AddBook (currentYear : Z) (req : Js.object)
| FindBooks (req : Js.object)
| CheckoutBook (req : Js.object)
| ReturnBook (req : Js.object)
| Clear.

Definition run_op (op : Op) (w : World) : World :=
  match op with
  | AddBook currentYear req => snd (LendingLibrary.addBook currentYear req w)
  | FindBooks req => snd (LendingLibrary.findBooks req w)
  | CheckoutBook req => snd (LendingLibrary.checkoutBook req w)
  | ReturnBook req => snd (LendingLibrary.returnBook req w)
  | Clear => snd (LendingLibrary.clear w)
  end.

Definition run_ops (ops : list Op) (w : World) : World :=
  fold_left (fun w op => run_op op w) ops w.

(** The store reached from the empty one by [ops] under the fault
    schedule [fs]. *)
Definition reached (ops : list Op) (fs : list bool) : Db :=
  db (run_ops ops (mkWorld empty_db fs)).

(** ** Observations on a database *)

(** The stored copy count of the book [i], if the book is stored. *)
Definition copies (i : string) (d : Db) : option Z :=
  option_map nCopies (find (has_isbn i) (booksCollection d)).

(** The records stored for the isbn [i]. *)
Definition records (i : string) (d : Db) : list XBook :=
  filter (has_isbn i) (booksCollection d).

(** The books held by the patron [p] (none when there is no record). *)
Definition held (p : string) (d : Db) : list string :=
  match find (has_id p) (patronCollection d) with
  | Some x => checkedOutBooks x
  | None => []
  end.

(** A checkout or return request for patron [p] and book [i]. *)
Definition lend_req (p i : string) : Js.object :=
  [("patronId", Js.Str p); ("isbn", Js.Str i)].

(** ** Postconditions and what each DAO method does *)

(** [post m d Q]: run from the database [d], under any schedule of
    faults, [m] ends with an outcome and a database related by [Q]. *)
Definition post {A} (m : IO A) (d : Db) (Q : outcome A -> Db -> Prop) : Prop :=
  forall fs, Q (fst (m (mkWorld d fs))) (db (snd (m (mkWorld d fs)))).

(** [LibraryDao.checkoutBook]: the business checks pass when the book is
    stored with a positive count and the patron does not hold it. *)
Definition may_checkout (p i : string) (d : Db) : Prop :=
  exists b, find (has_isbn i) (booksCollection d) = Some b
            /\ 0 < nCopies b
            /\ existsb (String.eqb i) (held p d) = false.

Inductive checkout_spec (p i : string) (d : Db)
  : outcome (Result unit) -> Db -> Prop :=
| checkout_fault msg :
    checkout_spec p i d (Returned (errResult msg DB)) d
| checkout_fault_half msg :
    may_checkout p i d ->
    checkout_spec p i d (Returned (errResult msg DB)) (inc_copies i (-1) d)
| checkout_refused msg :
    ~ may_checkout p i d ->
    checkout_spec p i d (Returned (errResult msg BAD_REQ)) d
| checkout_done :
    may_checkout p i d ->
    checkout_spec p i d (Returned (okResult tt))
                  (add_hold p i (inc_copies i (-1) d)).

Inductive return_spec (p i : string) (d : Db)
  : outcome (Result unit) -> Db -> Prop :=
| return_fault msg :
    return_spec p i d (Returned (errResult msg DB)) d
| return_fault_half msg :
    existsb (String.eqb i) (held p d) = true ->
    return_spec p i d (Returned (errResult msg DB)) (inc_copies i 1 d)
| return_refused msg :
    existsb (String.eqb i) (held p d) = false ->
    return_spec p i d (Returned (errResult msg BAD_REQ)) d
| return_done :
    existsb (String.eqb i) (held p d) = true ->
    return_spec p i d (Returned (okResult tt))
                (remove_hold p i (inc_copies i 1 d)).

Inductive addBook_spec (book : XBook) (d : Db)
  : outcome (Result XBook) -> Db -> Prop :=
| addBook_fault msg :
    addBook_spec book d (Returned (errResult msg DB)) d
| addBook_inserted :
    find (has_isbn (isbn book)) (booksCollection d) = None ->
    addBook_spec book d (Returned (okResult book)) (insert_book book d)
| addBook_incremented existing :
    find (has_isbn (isbn book)) (booksCollection d) = Some existing ->
    addBook_spec book d (Returned (okResult book))
                 (inc_copies (isbn book) (nCopies book) d).

Inductive clear_spec (d : Db) : outcome (Result unit) -> Db -> Prop :=
| clear_fault msg :
    clear_spec d (Returned (errResult msg DB)) d
| clear_fault_half msg :
    clear_spec d (Returned (errResult msg DB)) (mkDb [] (patronCollection d))
| clear_done :
    clear_spec d (Returned (okResult tt)) empty_db.

(** ** What each service method does *)

(** Both fields of a checkout or return request pass the checks
    [!v || typeof v !== 'string']. *)
Definition lend_args_ok (req : Js.object) : bool :=
  Js.truthy (Js.get req "patronId")
  && LendingLibrary.is_type Js.TString (Js.get req "patronId")
  && Js.truthy (Js.get req "isbn")
  && LendingLibrary.is_type Js.TString (Js.get req "isbn").

Definition patron_of (req : Js.object) : string :=
  LendingLibrary.str_of (Js.get req "patronId").

Definition isbn_of (req : Js.object) : string :=
  LendingLibrary.str_of (Js.get req "isbn").

(** What the service makes of the result of the DAO. *)
Definition relabel (message : string) (r : Result unit) : Result unit :=
  if isOk r then okResult tt else errResult message BAD_REQ.

Definition service_checkout_spec (req : Js.object) (d : Db)
    (o : outcome (Result unit)) (d' : Db) : Prop :=
  if lend_args_ok req then
    exists r, checkout_spec (patron_of req) (isbn_of req) d (Returned r) d'
              /\ o = Returned (relabel "Issue checking out this book" r)
  else d' = d /\ exists msg, o = Returned (errResult msg MISSING).

Definition service_return_spec (req : Js.object) (d : Db)
    (o : outcome (Result unit)) (d' : Db) : Prop :=
  if lend_args_ok req then
    exists r, return_spec (patron_of req) (isbn_of req) d (Returned r) d'
              /\ o = Returned (relabel "Issue returning this book" r)
  else d' = d /\ exists msg, o = Returned (errResult msg MISSING).

Definition service_addBook_spec (currentYear : Z) (req : Js.object) (d : Db)
    (o : outcome (Result XBook)) (d' : Db) : Prop :=
  match LendingLibrary.validateBook currentYear req with
  | errResult message c => o = Returned (errResult message c) /\ d' = d
  | okResult book => addBook_spec book d o d'
  end.

(** ** Invariants of the store *)

Definition copies_nonneg (d : Db) : Prop :=
  Forall (fun b => 0 <= nCopies b) (booksCollection d).

Definition holds_nodup (d : Db) : Prop :=
  Forall (fun x => NoDup (checkedOutBooks x)) (patronCollection d).

(** Both invariants together. *)
Definition store_ok (d : Db) : Prop := copies_nonneg d /\ holds_nodup d.

(** ** Sample data *)

Definition book_req (i t : string) (n : Z) : Js.object :=
  [("isbn", Js.Str i); ("title", Js.Str t);
   ("pages", Js.Num (Js.of_Z 310));
   ("authors", Js.Arr [Js.Str "J.R.R. Tolkien"]);
   ("publisher", Js.Str "Allen and Unwin");
   ("year", Js.Num (Js.of_Z 1937));
   ("nCopies", Js.Num (Js.of_Z n))].

Definition hobbit_isbn : string := "123-456-789-0".

Definition hobbit_req (n : Z) : Js.object :=
  book_req hobbit_isbn "The Hobbit" n.

Definition hobbit (n : Z) : XBook :=
  {| isbn := hobbit_isbn; title := "The Hobbit"; pages := 310;
     authors := ["J.R.R. Tolkien"]; publisher := "Allen and Unwin";
     year := Js.of_Z 1937; nCopies := n |}.

(** A store holding [n] copies of The Hobbit and nothing else. *)
Definition hobbit_db (n : Z) : Db := mkDb [hobbit n] [].

(** A catalogue of one copy of The Hobbit, checked out by patron p1. *)
Definition last_copy_out : list Op :=
  [AddBook 2024 (hobbit_req 1); CheckoutBook (lend_req "p1" hobbit_isbn)].

(** ** The matching rule of the specification

    In the words of the specification: a book matches if every token
    appears, case-insensitively, as a substring of its title or of its
    authors field. *)

Fixpoint prefix_ci (token s : string) : bool :=
  match token with
  | EmptyString => true
  | String c token' =>
      match s with
      | String x s' => (to_lower c =? to_lower x)%char && prefix_ci token' s'
      | EmptyString => false
      end
  end.

Fixpoint contains_ci (token s : string) : bool :=
  prefix_ci token s
  || match s with
     | String _ s' => contains_ci token s'
     | EmptyString => false
     end.

Definition spec_matches (tokens : list string) (b : XBook) : bool :=
  forallb (fun token => contains_ci token (title b)
                        || existsb (contains_ci token) (authors b))
          tokens.

(** Ascending order of titles. *)
Definition title_le (a b : XBook) : Prop :=
  String.leb (title a) (title b) = true.

(** An [addBook] request for The Hobbit with the two counts given. *)
Definition counts_req (pages_val nCopies_val : Js.value) : Js.object :=
  [("isbn", Js.Str hobbit_isbn); ("title", Js.Str "The Hobbit");
   ("pages", pages_val);
   ("authors", Js.Arr [Js.Str "J.R.R. Tolkien"]);
   ("publisher", Js.Str "Allen and Unwin");
   ("year", Js.Num (Js.of_Z 1937));
   ("nCopies", nCopies_val)].

(** ** Well-formed stores *)

(** What [LendingLibrary.addBook] has checked of a book it hands to the
    DAO (the upper bound of the year depends on the day of the call and
    is left out). *)
Definition checked_book (b : XBook) : bool :=
  isbn_format (isbn b)
  && negb (trim_is_empty (title b))
  && (0 <? pages b)
  && negb (List.length (authors b) =? 0)%nat
  && forallb (fun a => negb (trim_is_empty a)) (authors b)
  && negb (trim_is_empty (publisher b))
  && negb (Js.lt (year b) (Js.of_Z 1448)).

Definition books_checked (d : Db) : Prop :=
  Forall (fun b => checked_book b = true) (booksCollection d).

(** The unique indexes: one book for an isbn, one patron for an id. *)
Definition keys_unique (d : Db) : Prop :=
  NoDup (map isbn (booksCollection d)) /\ NoDup (map id (patronCollection d)).

(** The business checks of [LibraryDao.checkoutBook], as a test. *)
Definition can_checkout (p i : string) (d : Db) : bool :=
  match find (has_isbn i) (booksCollection d) with
  | Some b => (0 <? nCopies b) && negb (existsb (String.eqb i) (held p d))
  | None => false
  end.

(** The number of patron records that hold the isbn [i]. *)
Definition holders (i : string) (d : Db) : nat :=
  List.length
    (filter (fun x => existsb (String.eqb i) (checkedOutBooks x))
            (patronCollection d)).

(** ** Counts that the store holds exactly *)

(** The sum [$inc] would give without rounding: up to 2^53 in
    magnitude it is the sum the store keeps. *)
Definition add_to_nCopies (delta : Z) (b : XBook) : XBook :=
  mkXBook (isbn b) (title b) (pages b) (authors b) (publisher b) (year b)
          (nCopies b + delta).

Definition add_copies (i : string) (delta : Z) (d : Db) : Db :=
  mkDb (update_one (has_isbn i) (add_to_nCopies delta) (booksCollection d))
       (patronCollection d).

(** * Reasoning about computations *)

(** ** Binary64 integers *)

Lemma binary64_small z : Z.abs z <= 2 ^ 53 -> Js.binary64 z = z.
Proof.
  intros H. unfold Js.binary64.
  destruct (Z.leb_spec (Z.abs z) (2 ^ 53)); [reflexivity | lia].
Qed.

(** The parts of a magnitude beyond 2^53. *)
Lemma binary64_parts a :
  2 ^ 53 < a ->
  let unit := 2 ^ (Z.log2 a - 52) in
  1 <= Z.log2 a - 52 /\ 0 < unit /\ 2 ^ 52 <= a / unit < 2 ^ 53
  /\ 0 <= a mod unit < unit.
Proof.
  intros Ha unit.
  assert (Hlog : 53 <= Z.log2 a).
  { apply Z.log2_le_pow2; lia. }
  assert (Hu : 0 < unit) by (apply Z.pow_pos_nonneg; lia).
  destruct (Z.log2_spec a) as [Hlo Hhi]; [lia |].
  replace (Z.log2 a) with (52 + (Z.log2 a - 52)) in Hlo by lia.
  replace (Z.succ (Z.log2 a)) with (53 + (Z.log2 a - 52)) in Hhi by lia.
  rewrite Z.pow_add_r in Hlo, Hhi by lia. fold unit in Hlo, Hhi.
  repeat split; try lia.
  - apply Z.div_le_lower_bound; lia.
  - apply Z.div_lt_upper_bound; lia.
  - apply Z.mod_pos_bound; lia.
  - apply Z.mod_pos_bound; lia.
Qed.

Lemma binary64_nonneg z : 0 <= z -> 0 <= Js.binary64 z.
Proof.
  intros Hz. unfold Js.binary64.
  destruct (Z.leb_spec (Z.abs z) (2 ^ 53)) as [| Hbig]; [exact Hz |].
  destruct (binary64_parts (Z.abs z) Hbig) as (_ & Hu & Hq & _).
  cbv zeta. rewrite Z.sgn_pos by lia.
  repeat match goal with |- context [if ?c then _ else _] => destruct c end; nia.
Qed.

Lemma binary64_pos z : 0 < z -> 0 < Js.binary64 z.
Proof.
  intros Hz. unfold Js.binary64.
  destruct (Z.leb_spec (Z.abs z) (2 ^ 53)) as [| Hbig]; [exact Hz |].
  destruct (binary64_parts (Z.abs z) Hbig) as (_ & Hu & Hq & _).
  cbv zeta. rewrite Z.sgn_pos by lia.
  repeat match goal with |- context [if ?c then _ else _] => destruct c end; nia.
Qed.





Lemma post_run {A} (m : IO A) (Q : outcome A -> Db -> Prop) (w : World) :
  post m (db w) Q -> Q (fst (m w)) (db (snd (m w))).
Proof. intros H. destruct w as [d fs]. apply H. Qed.

Lemma post_ret {A} (a : A) d (Q : outcome A -> Db -> Prop) :
  Q (Returned a) d -> post (ret a) d Q.
Proof. intros H fs. exact H. Qed.

Lemma post_bind {A B} (m : IO A) (k : A -> IO B) d
    (Q : outcome B -> Db -> Prop) :
  post m d (fun o d' =>
              match o with
              | Returned a => post (k a) d' Q
              | Thrown e => Q (Thrown e) d'
              end) ->
  post (bind m k) d Q.
Proof.
  intros H fs. specialize (H fs). unfold bind.
  destruct (m (mkWorld d fs)) as [[a | e] w']; cbn [fst snd] in *.
  - apply post_run, H.
  - exact H.
Qed.

Lemma post_try_catch {A} (m : IO A) (handler : string -> IO A) d
    (Q : outcome A -> Db -> Prop) :
  post m d (fun o d' =>
              match o with
              | Returned a => Q (Returned a) d'
              | Thrown e => post (handler e) d' Q
              end) ->
  post (try_catch m handler) d Q.
Proof.
  intros H fs. specialize (H fs). unfold try_catch.
  destruct (m (mkWorld d fs)) as [[a | e] w']; cbn [fst snd] in *.
  - exact H.
  - apply post_run, H.
Qed.

Lemma post_store_call {A} (f : Db -> outcome A * Db) d
    (Q : outcome A -> Db -> Prop) :
  Q (Thrown "store failure") d ->
  Q (fst (f d)) (snd (f d)) ->
  post (store_call f) d Q.
Proof.
  intros Hfault Hrun fs. unfold store_call. cbn [faults db].
  destruct fs as [| [|] fs]; try exact Hfault;
    destruct (f d) as [o d']; exact Hrun.
Qed.

Lemma post_consequence {A} (m : IO A) d (Q Q' : outcome A -> Db -> Prop) :
  post m d Q -> (forall o d', Q o d' -> Q' o d') -> post m d Q'.
Proof. intros H HQ fs. apply HQ, H. Qed.

Lemma post_conj {A} (m : IO A) d (Q Q' : outcome A -> Db -> Prop) :
  post m d Q -> post m d Q' -> post m d (fun o d' => Q o d' /\ Q' o d').
Proof. intros H H' fs. split; [apply H | apply H']. Qed.

(** One step of symbolic execution of a method body. *)
Ltac exec_step :=
  lazymatch goal with
  | |- post (try_catch _ _) _ _ => apply post_try_catch
  | |- post (bind _ _) _ _ => apply post_bind
  | |- post (store_call _) _ _ => apply post_store_call; cbn [fst snd]
  | |- post (ret _) _ _ => apply post_ret
  | |- post (if ?c then _ else _) _ _ => destruct c eqn:?
  | |- post (match ?x with _ => _ end) _ _ => destruct x eqn:?
  end.

Ltac exec := repeat (exec_step; cbn beta iota).

(** ** The DAO methods meet their descriptions *)

Lemma existsb_held p i d :
  existsb (String.eqb i) (held p d)
  = match find (has_id p) (patronCollection d) with
    | Some patron => existsb (String.eqb i) (checkedOutBooks patron)
    | None => false
    end.
Proof. unfold held. destruct (find _ _); reflexivity. Qed.

Lemma dao_checkoutBook_spec p i d :
  post (LibraryDao.checkoutBook p i) d (checkout_spec p i d).
Proof.
  unfold LibraryDao.checkoutBook, Books.findOne, Patrons.findOne,
    Books.updateOne_inc, Patrons.updateOne_addToSet.
  exec; try (apply checkout_fault).
  - apply checkout_refused. intros (b & Hb & Hpos & _).
    rewrite Hb in Heqo. injection Heqo as <-.  apply Z.leb_le in Heqb. lia.
  - apply checkout_refused. intros (b & _ & _ & Hheld).
    rewrite existsb_held in Hheld. congruence.
  - apply checkout_fault_half. exists x. rewrite existsb_held.
    apply Z.leb_gt in Heqb. auto.
  - apply checkout_done. exists x. rewrite existsb_held.
    apply Z.leb_gt in Heqb. auto.
  - apply checkout_refused. intros (b & Hb & _). congruence.
Qed.

Lemma dao_returnBook_spec p i d :
  post (LibraryDao.returnBook p i) d (return_spec p i d).
Proof.
  unfold LibraryDao.returnBook, Patrons.findOne, Books.updateOne_inc,
    Patrons.updateOne_pull.
  exec; try (apply return_fault);
    [apply return_refused | apply return_fault_half | apply return_done];
    rewrite existsb_held; destruct (find _ _) as [x |];
    try destruct (existsb _ (checkedOutBooks x)); cbn in *; congruence.
Qed.

Lemma find_existsb {A} (p : A -> bool) l :
  existsb p l = match find p l with Some _ => true | None => false end.
Proof. induction l as [| x l IH]; cbn; [| destruct (p x)]; auto. Qed.

Lemma dao_addBook_spec book d :
  post (LibraryDao.addBook book) d (addBook_spec book d).
Proof.
  unfold LibraryDao.addBook, Books.findOne, Books.updateOne_inc,
    Books.insertOne.
  exec; try (apply addBook_fault).
  - rewrite find_existsb, Heqo in Heqb. discriminate.
  - eapply addBook_incremented; eauto.
  - rewrite find_existsb, Heqo. cbn. exec; try (apply addBook_fault). now apply addBook_inserted.
Qed.

Lemma dao_clearDatabase_spec d :
  post LibraryDao.clearDatabase d (clear_spec d).
Proof.
  unfold LibraryDao.clearDatabase, Books.deleteMany, Patrons.deleteMany.
  exec; cbn; constructor.
Qed.

Lemma dao_findBooksBySearch_spec ws index count d :
  post (LibraryDao.findBooksBySearch ws index count) d
       (fun o d' => d' = d
                    /\ exists r, o = Returned r
                                 /\ (err_code r = None \/ err_code r = Some DB)).
Proof.
  unfold LibraryDao.findBooksBySearch, Books.find_page.
  exec; try (split; eauto; fail).
  all: destruct (LibraryDao.multiWordSearch ws), (cursor_arg index),
         (cursor_arg count); cbn; exec; eauto.
Qed.

(** ** The service methods meet their descriptions *)

Lemma service_checkoutBook_spec req d :
  post (LendingLibrary.checkoutBook req) d (service_checkout_spec req d).
Proof.
  unfold LendingLibrary.checkoutBook, service_checkout_spec, lend_args_ok.
  apply post_try_catch. cbn zeta.
  destruct (Js.truthy (Js.get req "patronId")); cbn [negb orb andb];
    [| apply post_ret; eauto].
  destruct (LendingLibrary.is_type _ (Js.get req "patronId"));
    cbn [negb orb andb]; [| apply post_ret; eauto].
  destruct (Js.truthy (Js.get req "isbn")); cbn [negb orb andb];
    [| apply post_ret; eauto].
  destruct (LendingLibrary.is_type _ (Js.get req "isbn"));
    cbn [negb orb andb]; [| apply post_ret; eauto].
  apply post_bind.
  eapply post_consequence; [apply dao_checkoutBook_spec |].
  intros o d' H. destruct H; cbn [isOk negb]; apply post_ret;
    [exists (errResult msg DB) | exists (errResult msg DB)
     | exists (errResult msg BAD_REQ) | exists (okResult tt)];
    (split; [constructor; assumption | reflexivity]).
Qed.

Lemma service_returnBook_spec req d :
  post (LendingLibrary.returnBook req) d (service_return_spec req d).
Proof.
  unfold LendingLibrary.returnBook, service_return_spec, lend_args_ok.
  apply post_try_catch. cbn zeta.
  destruct (Js.truthy (Js.get req "patronId")); cbn [negb orb andb];
    [| apply post_ret; eauto].
  destruct (LendingLibrary.is_type _ (Js.get req "patronId"));
    cbn [negb orb andb]; [| apply post_ret; eauto].
  destruct (Js.truthy (Js.get req "isbn")); cbn [negb orb andb];
    [| apply post_ret; eauto].
  destruct (LendingLibrary.is_type _ (Js.get req "isbn"));
    cbn [negb orb andb]; [| apply post_ret; eauto].
  apply post_bind.
  eapply post_consequence; [apply dao_returnBook_spec |].
  intros o d' H. destruct H; cbn [isOk negb]; apply post_ret;
    [exists (errResult msg DB) | exists (errResult msg DB)
     | exists (errResult msg BAD_REQ) | exists (okResult tt)];
    (split; [constructor; assumption | reflexivity]).
Qed.

Lemma service_addBook_spec_holds currentYear req d :
  post (LendingLibrary.addBook currentYear req) d
       (service_addBook_spec currentYear req d).
Proof.
  unfold LendingLibrary.addBook, service_addBook_spec.
  apply post_try_catch.
  destruct (LendingLibrary.validateBook currentYear req) as [book | msg c].
  - apply post_bind.
    eapply post_consequence; [apply dao_addBook_spec |].
    intros o d' H. destruct H; apply post_ret; econstructor; eassumption.
  - apply post_ret. auto.
Qed.

Lemma service_clear_spec d :
  post LendingLibrary.clear d
       (fun o d' => o = Returned (okResult tt)
                    /\ (d' = d \/ d' = mkDb [] (patronCollection d)
                        \/ d' = empty_db)).
Proof.
  unfold LendingLibrary.clear.
  apply post_try_catch, post_bind.
  eapply post_consequence; [apply dao_clearDatabase_spec |].
  intros o d' H. destruct H; apply post_ret; auto.
Qed.

Lemma service_findBooks_spec req d :
  post (LendingLibrary.findBooks req) d
       (fun o d' => d' = d /\ exists r, o = Returned r).
Proof.
  unfold LendingLibrary.findBooks.
  apply post_try_catch.
  destruct (_ || _); [apply post_ret; eauto |]. cbn zeta.
  destruct (_ =? _)%nat; [apply post_ret; eauto |].
  apply post_bind.
  eapply post_consequence; [apply dao_findBooksBySearch_spec |].
  intros o d' (-> & r & -> & _). apply post_ret; eauto.
Qed.

(** ** Lists of documents *)

Section UpdateOne.
Context {A : Type} (p : A -> bool) (f : A -> A).

Lemma Forall_update_one (P : A -> Prop) l :
  Forall P l ->
  (forall x, find p l = Some x -> P x -> P (f x)) ->
  Forall P (update_one p f l).
Proof.
  induction 1 as [| x l Hx Hl IH]; cbn; intros Hf; [constructor |].
  destruct (p x) eqn:Hp; constructor; auto.
Qed.

Hypothesis key_kept : forall x, p (f x) = p x.

Lemma find_update_one l :
  find p (update_one p f l) = option_map f (find p l).
Proof.
  induction l as [| x l IH]; cbn; [reflexivity |].
  destruct (p x) eqn:Hp; cbn; [rewrite key_kept, Hp | rewrite Hp]; auto.
Qed.

Lemma filter_update_one l :
  filter p (update_one p f l)
  = match filter p l with
    | [] => []
    | x :: rest => f x :: rest
    end.
Proof.
  induction l as [| x l IH]; cbn; [reflexivity |].
  destruct (p x) eqn:Hp; cbn; [rewrite key_kept, Hp | rewrite Hp]; auto.
Qed.

End UpdateOne.

Lemma has_isbn_inc i delta b : has_isbn i (inc_nCopies delta b) = has_isbn i b.
Proof. reflexivity. Qed.

Lemma find_none_filter {A} (p : A -> bool) l :
  find p l = None -> filter p l = [].
Proof.
  induction l as [| x l IH]; cbn; [reflexivity |].
  destruct (p x); [discriminate | auto].
Qed.

Lemma find_app_none {A} (p : A -> bool) l x :
  find p l = None -> find p (l ++ [x]) = find p [x].
Proof.
  induction l as [| y l IH]; cbn; [reflexivity |].
  destruct (p y); [discriminate | auto].
Qed.

Lemma NoDup_addToSet i l : NoDup l -> NoDup (addToSet i l).
Proof.
  intros Hl. unfold addToSet. destruct (existsb _ l) eqn:He; [exact Hl |].
  apply NoDup_app; [exact Hl | repeat constructor; intros [] |].
  intros x Hx [<- | []].
  assert (existsb (String.eqb i) l = true); [| congruence].
  apply existsb_exists. exists i. split; [exact Hx | apply String.eqb_refl].
Qed.

Lemma NoDup_pull i l : NoDup l -> NoDup (pull i l).
Proof. apply NoDup_filter. Qed.

Lemma pull_not_In i l : ~ In i (pull i l).
Proof.
  unfold pull. intros H. apply filter_In in H as [_ H].
  rewrite String.eqb_refl in H. discriminate.
Qed.

Lemma positive_integer_int_of v :
  LendingLibrary.not_positive_integer v = false -> 0 < LendingLibrary.int_of v.
Proof.
  unfold LendingLibrary.not_positive_integer, LendingLibrary.int_of,
    Js.isInteger.
  destruct v as [| | b | [q | | |] | s | l |]; cbn -[Js.binary64];
    try discriminate.
  destruct (Qnum q mod Z.pos (Qden q) =? 0) eqn:Hmod; cbn -[Js.binary64];
    [| discriminate].
  unfold Qle_bool. cbn -[Js.binary64]. intros Hle.
  apply Z.leb_gt in Hle. apply Z.eqb_eq in Hmod.
  apply Z.div_exact in Hmod; [| lia].
  assert (0 < Z.pos (Qden q)) by lia. apply binary64_pos. nia.
Qed.


Ltac walk_checks H :=
  repeat match type of H with
         | (if ?c then _ else _) = _ => destruct c eqn:?; [discriminate H |]
         end.

Lemma validateBook_nCopies currentYear req book :
  LendingLibrary.validateBook currentYear req = okResult book ->
  nCopies book = LendingLibrary.int_of (Js.get req "nCopies")
  /\ 0 < nCopies book.
Proof.
  unfold LendingLibrary.validateBook. intros H. walk_checks H.
  injection H as <-. cbn [nCopies]. split; [reflexivity |].
  now apply positive_integer_int_of.
Qed.

(** ** The invariants are kept by every method *)

Lemma addBook_spec_copies_nonneg book d o d' :
  0 < nCopies book -> addBook_spec book d o d' ->
  copies_nonneg d -> copies_nonneg d'.
Proof.
  unfold copies_nonneg. intros Hpos H Hd.
  destruct H; cbn [inc_copies insert_book booksCollection]; auto.
  - apply Forall_app. split; [exact Hd | repeat constructor; lia].
  - apply Forall_update_one; [exact Hd |]. intros x _ Hx.
    cbn [inc_nCopies nCopies]. apply binary64_nonneg. lia.
Qed.

Lemma checkout_spec_copies_nonneg p i d o d' :
  checkout_spec p i d o d' -> copies_nonneg d -> copies_nonneg d'.
Proof.
  unfold copies_nonneg.
  intros H Hd.
  destruct H as [msg | msg (b & Hb & Hpos & _) | msg _ | (b & Hb & Hpos & _)];
    cbn [inc_copies add_hold booksCollection]; auto;
    apply Forall_update_one; auto; intros x Hx _;
    assert (x = b) by congruence; subst;
    cbn [inc_nCopies nCopies]; apply binary64_nonneg; lia.
Qed.

Lemma return_spec_copies_nonneg p i d o d' :
  return_spec p i d o d' -> copies_nonneg d -> copies_nonneg d'.
Proof.
  unfold copies_nonneg.
  intros H Hd.
  destruct H; cbn [inc_copies remove_hold booksCollection]; auto;
    apply Forall_update_one; auto; intros x _ Hx;
    cbn [inc_nCopies nCopies]; apply binary64_nonneg; lia.
Qed.

Lemma checkout_spec_holds_nodup p i d o d' :
  checkout_spec p i d o d' -> holds_nodup d -> holds_nodup d'.
Proof.
  unfold holds_nodup. intros H Hd. destruct H; cbn; auto.
  destruct (existsb _ _).
  - apply Forall_update_one; auto. cbn. intros. now apply NoDup_addToSet.
  - apply Forall_app. split; [exact Hd |]. repeat constructor. intros [].
Qed.

Lemma return_spec_holds_nodup p i d o d' :
  return_spec p i d o d' -> holds_nodup d -> holds_nodup d'.
Proof.
  unfold holds_nodup. intros H Hd. destruct H; cbn; auto.
  apply Forall_update_one; auto. cbn. intros. now apply NoDup_pull.
Qed.

Lemma addBook_spec_holds_nodup book d o d' :
  addBook_spec book d o d' -> holds_nodup d -> holds_nodup d'.
Proof. unfold holds_nodup. intros H Hd. destruct H; cbn; auto. Qed.

Lemma empty_db_ok : store_ok empty_db.
Proof. split; constructor. Qed.

Lemma run_op_ok op w : store_ok (db w) -> store_ok (db (run_op op w)).
Proof.
  intros [Hc Hh]. destruct op as [y req | req | req | req |]; cbn [run_op].
  - pose proof (post_run _ _ w (service_addBook_spec_holds y req (db w))) as H.
    unfold service_addBook_spec in H.
    destruct (LendingLibrary.validateBook y req) as [book | msg c] eqn:Hv.
    + apply validateBook_nCopies in Hv as [_ Hpos]. split.
      * eapply addBook_spec_copies_nonneg; eauto.
      * eapply addBook_spec_holds_nodup; eauto.
    + destruct H as [_ ->]. now split.
  - pose proof (post_run _ _ w (service_findBooks_spec req (db w))) as [-> _].
    now split.
  - pose proof (post_run _ _ w (service_checkoutBook_spec req (db w))) as H.
    unfold service_checkout_spec in H. destruct (lend_args_ok req).
    + destruct H as (r & H & _). split.
      * eapply checkout_spec_copies_nonneg; eauto.
      * eapply checkout_spec_holds_nodup; eauto.
    + destruct H as [-> _]. now split.
  - pose proof (post_run _ _ w (service_returnBook_spec req (db w))) as H.
    unfold service_return_spec in H. destruct (lend_args_ok req).
    + destruct H as (r & H & _). split.
      * eapply return_spec_copies_nonneg; eauto.
      * eapply return_spec_holds_nodup; eauto.
    + destruct H as [-> _]. now split.
  - pose proof (post_run _ _ w (service_clear_spec (db w)))
      as [_ [-> | [-> | ->]]]; try now split.
    + split; [constructor | exact Hh].
    + apply empty_db_ok.
Qed.

Lemma run_ops_ok ops w : store_ok (db w) -> store_ok (db (run_ops ops w)).
Proof.
  revert w. induction ops as [| op ops IH]; intros w Hw; cbn; [exact Hw |].
  apply IH, run_op_ok, Hw.
Qed.

Lemma reached_ok ops fs : store_ok (reached ops fs).
Proof. apply run_ops_ok, empty_db_ok. Qed.

(** ** Successful calls *)

(** A successful result of the service is a completed DAO method. *)
Lemma checkout_ok_inv req w :
  fst (LendingLibrary.checkoutBook req w) = Returned (okResult tt) ->
  may_checkout (patron_of req) (isbn_of req) (db w)
  /\ db (snd (LendingLibrary.checkoutBook req w))
     = add_hold (patron_of req) (isbn_of req)
         (inc_copies (isbn_of req) (-1) (db w)).
Proof.
  intros Hok.
  pose proof (post_run _ _ w (service_checkoutBook_spec req (db w))) as H.
  unfold service_checkout_spec in H. rewrite Hok in H.
  destruct (lend_args_ok req).
  - destruct H as (r & H & Hr). inversion H; subst; cbn in Hr;
      try discriminate; auto.
  - destruct H as (_ & msg & H). discriminate.
Qed.

Lemma return_ok_inv req w :
  fst (LendingLibrary.returnBook req w) = Returned (okResult tt) ->
  db (snd (LendingLibrary.returnBook req w))
  = remove_hold (patron_of req) (isbn_of req)
      (inc_copies (isbn_of req) 1 (db w)).
Proof.
  intros Hok.
  pose proof (post_run _ _ w (service_returnBook_spec req (db w))) as H.
  unfold service_return_spec in H. rewrite Hok in H.
  destruct (lend_args_ok req).
  - destruct H as (r & H & Hr). inversion H; subst; cbn in Hr;
      try discriminate; auto.
  - destruct H as (_ & msg & H). discriminate.
Qed.

Lemma held_remove_hold p i d : ~ In i (held p (remove_hold p i d)).
Proof.
  unfold held, remove_hold. cbn [patronCollection].
  rewrite find_update_one by reflexivity.
  destruct (find _ _); cbn; [apply pull_not_In | auto].
Qed.

Lemma copies_inc_copies i delta d :
  copies i (inc_copies i delta d)
  = option_map (fun n => Js.binary64 (n + delta)) (copies i d).
Proof.
  unfold copies, inc_copies. cbn [booksCollection].
  rewrite find_update_one by reflexivity.
  destruct (find _ _); reflexivity.
Qed.



Lemma checkout_refused_inv req d :
  lend_args_ok req = true ->
  ~ may_checkout (patron_of req) (isbn_of req) d ->
  post (LendingLibrary.checkoutBook req) d
       (fun o d' => d' = d
                    /\ o = Returned (errResult "Issue checking out this book"
                                               BAD_REQ)).
Proof.
  intros Hargs Hno.
  eapply post_consequence; [apply service_checkoutBook_spec |].
  unfold service_checkout_spec. rewrite Hargs.
  intros o d' (r & H & ->). inversion H; subst; auto; contradiction.
Qed.

(** C7: after every sequence of operations on an empty store, under
    every schedule of store faults, no stored book has a negative
    nCopies, and a well-formed [checkoutBook] request for a book whose
    nCopies is 0 fails with code BAD_REQ and leaves the store as it
    is. *)
Theorem copies_never_negative_and_none_left_refused :
  forall (ops : list Op) (fs : list bool),
    (forall b, In b (booksCollection (reached ops fs)) -> 0 <= nCopies b)
    /\ (forall (req : Js.object) (fs' : list bool),
          lend_args_ok req = true ->
          copies (isbn_of req) (reached ops fs) = Some 0 ->
          let r := LendingLibrary.checkoutBook req
                     (mkWorld (reached ops fs) fs') in
          (exists msg, fst r = Returned (errResult msg BAD_REQ))
          /\ db (snd r) = reached ops fs).
Proof.
  intros ops fs. split.
  - apply Forall_forall. apply (reached_ok ops fs).
  - intros req fs' Hargs Hzero r.
    assert (Hno : ~ may_checkout (patron_of req) (isbn_of req)
                    (reached ops fs)).
    { intros (b & Hb & Hpos & _). unfold copies in Hzero.
      rewrite Hb in Hzero. cbn in Hzero. injection Hzero as Hzero. lia. }
    destruct (checkout_refused_inv req _ Hargs Hno fs') as [Hd Hr].
    split; [eexists; exact Hr | exact Hd].
Qed.

(** C10: after every sequence of operations on an empty store, under
    every schedule of store faults, the checkedOutBooks of every patron
    record has no duplicate isbn. *)
Theorem held_books_never_duplicated :
  forall (ops : list Op) (fs : list bool),
    Forall (fun x => NoDup (checkedOutBooks x))
           (patronCollection (reached ops fs)).
Proof. intros ops fs. apply (reached_ok ops fs). Qed.

Lemma validateBook_year_free y1 y2 req b1 b2 :
  LendingLibrary.validateBook y1 req = okResult b1 ->
  LendingLibrary.validateBook y2 req = okResult b2 ->
  b1 = b2 /\ isbn b1 = isbn_of req.
Proof.
  unfold LendingLibrary.validateBook. intros H1 H2.
  walk_checks H1. walk_checks H2.
  injection H1 as <-. injection H2 as <-. split; reflexivity.
Qed.

Lemma addBook_ok_inv y req w b :
  fst (LendingLibrary.addBook y req w) = Returned (okResult b) ->
  LendingLibrary.validateBook y req = okResult b
  /\ db (snd (LendingLibrary.addBook y req w))
     = match find (has_isbn (isbn b)) (booksCollection (db w)) with
       | Some _ => inc_copies (isbn b) (nCopies b) (db w)
       | None => insert_book b (db w)
       end.
Proof.
  intros Hok.
  pose proof (post_run _ _ w (service_addBook_spec_holds y req (db w))) as H.
  unfold service_addBook_spec in H. rewrite Hok in H.
  destruct (LendingLibrary.validateBook y req) as [book | msg c].
  - inversion H as [| Hf Ho Hd | ex Hf Ho Hd]; subst; rewrite Hf; auto.
  - destruct H as [H _]. discriminate.
Qed.



Lemma find_filter_cons {A} (p : A -> bool) l x rest :
  filter p l = x :: rest -> find p l = Some x.
Proof.
  induction l as [| y l IH]; cbn; [discriminate |].
  destruct (p y); [congruence | auto].
Qed.

Lemma records_inc_copies i delta d :
  records i (inc_copies i delta d)
  = match records i d with
    | [] => []
    | x :: rest => inc_nCopies delta x :: rest
    end.
Proof.
  unfold records, inc_copies. cbn [booksCollection].
  now rewrite filter_update_one.
Qed.

(** On a store that already has the one record of the isbn, the two
    calls add 2k to its count, as long as the sum is at most 2^53, and
    create no record. *)
Lemma addBook_twice_on_stored_record y1 y2 req w b1 b2 b0 :
  records (isbn_of req) (db w) = [b0] ->
  0 <= nCopies b0 ->
  nCopies b0 + 2 * LendingLibrary.int_of (Js.get req "nCopies") <= 2 ^ 53 ->
  fst (LendingLibrary.addBook y1 req w) = Returned (okResult b1) ->
  fst (LendingLibrary.addBook y2 req (snd (LendingLibrary.addBook y1 req w)))
  = Returned (okResult b2) ->
  records (isbn_of req)
    (db (snd (LendingLibrary.addBook y2 req
                (snd (LendingLibrary.addBook y1 req w)))))
  = [inc_nCopies (2 * LendingLibrary.int_of (Js.get req "nCopies")) b0].
Proof.
  intros Hrec Hn0 Hmax H1 H2.
  apply addBook_ok_inv in H1 as [Hv1 Hd1].
  apply addBook_ok_inv in H2 as [Hv2 Hd2].
  destruct (validateBook_year_free _ _ _ _ _ Hv1 Hv2) as [<- Hi].
  apply validateBook_nCopies in Hv1 as [Hk Hpos].
  rewrite Hi in *.
  rewrite (find_filter_cons _ _ _ _ Hrec) in Hd1.
  assert (Hrec1 : records (isbn_of req)
                    (db (snd (LendingLibrary.addBook y1 req w)))
                  = [inc_nCopies (nCopies b1) b0]).
  { now rewrite Hd1, records_inc_copies, Hrec. }
  rewrite (find_filter_cons _ _ _ _ Hrec1) in Hd2.
  rewrite Hd2, records_inc_copies, Hrec1. f_equal.
  unfold inc_nCopies. cbn [isbn title pages authors publisher year nCopies].
  f_equal. rewrite <- Hk in *.
  rewrite (binary64_small (nCopies b0 + nCopies b1)) by lia.
  rewrite !binary64_small by lia. lia.
Qed.

(** A patron who holds the book is refused a second checkout of it. *)
Lemma held_book_checkout_refused req d :
  lend_args_ok req = true ->
  In (isbn_of req) (held (patron_of req) d) ->
  post (LendingLibrary.checkoutBook req) d
       (fun o d' => d' = d
                    /\ o = Returned (errResult "Issue checking out this book"
                                               BAD_REQ)).
Proof.
  intros Hargs Hheld. apply checkout_refused_inv; [exact Hargs |].
  intros (b & _ & _ & Hno).
  assert (existsb (String.eqb (isbn_of req)) (held (patron_of req) d) = true);
    [| congruence].
  apply existsb_exists. eexists. split; [exact Hheld | apply String.eqb_refl].
Qed.

(** Whatever fails the test of [pages] fails with BAD_TYPE, and so does
    whatever fails the test of [nCopies]. *)
Lemma flagged_pages_is_BAD_TYPE y v n :
  LendingLibrary.not_positive_integer v = true ->
  LendingLibrary.validateBook y (counts_req v n)
  = errResult "Pages must be a positive integer" BAD_TYPE.
Proof.
  intros Hv. unfold LendingLibrary.validateBook.
  change (Js.get (counts_req v n) "pages") with v. rewrite Hv. reflexivity.
Qed.

Lemma flagged_nCopies_is_BAD_TYPE y v :
  1937 <= y ->
  LendingLibrary.not_positive_integer v = true ->
  LendingLibrary.validateBook y (counts_req (Js.Num (Js.of_Z 310)) v)
  = errResult "nCopies must be a positive integer" BAD_TYPE.
Proof.
  intros Hy Hv. unfold LendingLibrary.validateBook.
  change (Js.get (counts_req (Js.Num (Js.of_Z 310)) v) "nCopies") with v.
  rewrite Hv.
  assert (Hyear : Js.gt (LendingLibrary.num_of
                           (Js.get (counts_req (Js.Num (Js.of_Z 310)) v) "year"))
                        (Js.of_Z y) = false).
  { cbn. unfold Qle_bool. cbn. apply negb_false_iff, Z.leb_le. lia. }
  rewrite Hyear. reflexivity.
Qed.

(** ** Search: where the code and the specification agree *)

Lemma leb_total s t : String.leb s t = false -> String.leb t s = true.
Proof.
  unfold String.leb. rewrite (String.compare_antisym s t).
  destruct (String.compare t s); cbn; congruence.
Qed.

Lemma insert_by_title_perm b l : Permutation (b :: l) (insert_by_title b l).
Proof.
  induction l as [| x l IH]; cbn; [reflexivity |].
  destruct (String.leb _ _); [reflexivity |].
  rewrite perm_swap. now constructor.
Qed.

Lemma sort_by_title_perm l : Permutation l (sort_by_title l).
Proof.
  induction l as [| x l IH]; cbn; [constructor |].
  rewrite <- insert_by_title_perm. now constructor.
Qed.

Lemma insert_by_title_sorted b l :
  LocallySorted title_le l -> LocallySorted title_le (insert_by_title b l).
Proof.
  induction 1 as [| x | x y l Hl IH Hxy]; cbn.
  - constructor.
  - destruct (String.leb (title b) (title x)) eqn:Hb;
      repeat constructor; auto. now apply leb_total.
  - destruct (String.leb (title b) (title x)) eqn:Hb.
    + repeat constructor; auto.
    + cbn in IH. destruct (String.leb (title b) (title y)) eqn:Hy;
        constructor; auto. now apply leb_total.
Qed.

Lemma sort_by_title_sorted l : LocallySorted title_le (sort_by_title l).
Proof.
  induction l as [| x l IH]; cbn; [constructor |].
  now apply insert_by_title_sorted.
Qed.

Lemma not_dot_of_word c : is_word c = true -> c <> "."%char.
Proof. intros H ->. discriminate. Qed.

Lemma parse_regex_word w :
  all_chars is_word w = true ->
  parse_regex w = map Lit (list_ascii_of_string w).
Proof.
  induction w as [| c w IH]; cbn [all_chars]; [reflexivity |].
  intros H. apply andb_true_iff in H as [Hc Hw].
  cbn [list_ascii_of_string map]. rewrite <- (IH Hw).
  destruct c as [[] [] [] [] [] [] [] []]; try reflexivity; discriminate.
Qed.

Lemma match_here_literal w s :
  match_here (map Lit (list_ascii_of_string w)) s = prefix_ci w s.
Proof.
  revert s. induction w as [| c w IH]; intros s; cbn; [reflexivity |].
  destruct s; [reflexivity |]. now rewrite IH.
Qed.

Lemma regex_query_single_word w s :
  all_chars is_word w = true -> regex_query w s = contains_ci w s.
Proof.
  intros Hw. unfold regex_query. rewrite (parse_regex_word w Hw).
  induction s as [| x s IH]; cbn [regex_test contains_ci];
    rewrite match_here_literal; [reflexivity |]. now rewrite IH.
Qed.

Lemma existsb_ext_eq {A} (f g : A -> bool) l :
  (forall x, f x = g x) -> existsb f l = existsb g l.
Proof. intros H. induction l as [| x l IH]; cbn; [| rewrite H, IH]; auto. Qed.

Lemma spec_matches_single_word w b :
  all_chars is_word w = true ->
  regex_query w (title b) || regex_query_array w (authors b)
  = spec_matches [w] b.
Proof.
  intros Hw. unfold spec_matches, regex_query_array. cbn [forallb].
  rewrite andb_true_r, (regex_query_single_word w _ Hw). f_equal.
  apply existsb_ext_eq. intros s. apply (regex_query_single_word w s Hw).
Qed.

(** For a search of one word the DAO returns the page of the sorted
    matches that the specification describes. *)
Lemma findBooksBySearch_single_word w index count skip lim d :
  all_chars is_word w = true ->
  cursor_arg index = Some skip ->
  cursor_arg count = Some lim ->
  fst (LibraryDao.findBooksBySearch [w] index count (mkWorld d []))
  = Returned (okResult
      (limit lim (skipn skip
         (sort_by_title (filter (spec_matches [w]) (booksCollection d)))))).
Proof.
  intros Hw Hi Hc.
  unfold LibraryDao.findBooksBySearch, Books.find_page, try_catch, bind,
    store_call, ret. cbn. rewrite Hi, Hc. cbn.
  rewrite (filter_ext _ (spec_matches [w]))
    by (intros b; apply spec_matches_single_word, Hw).
  do 2 f_equal. rewrite <- (map_id (limit _ _)) at 2.
  apply map_ext. now intros [].
Qed.

(** ** Result codes *)

(** The codes a lending request can end with. *)
Lemma checkoutBook_codes req w :
  exists r, fst (LendingLibrary.checkoutBook req w) = Returned r
            /\ (err_code r = None \/ err_code r = Some MISSING
                \/ err_code r = Some BAD_REQ).
Proof.
  pose proof (post_run _ _ w (service_checkoutBook_spec req (db w))) as H.
  unfold service_checkout_spec in H. destruct (lend_args_ok req).
  - destruct H as (r & _ & ->). eexists. split; [reflexivity |].
    unfold relabel. destruct (isOk r); cbn; auto.
  - destruct H as (_ & msg & ->). eexists. split; [reflexivity |]. cbn. auto.
Qed.

Lemma returnBook_codes req w :
  exists r, fst (LendingLibrary.returnBook req w) = Returned r
            /\ (err_code r = None \/ err_code r = Some MISSING
                \/ err_code r = Some BAD_REQ).
Proof.
  pose proof (post_run _ _ w (service_returnBook_spec req (db w))) as H.
  unfold service_return_spec in H. destruct (lend_args_ok req).
  - destruct H as (r & _ & ->). eexists. split; [reflexivity |].
    unfold relabel. destruct (isOk r); cbn; auto.
  - destruct H as (_ & msg & ->). eexists. split; [reflexivity |]. cbn. auto.
Qed.

(** The DAO never answers [addBook] with BAD_REQ. *)
Lemma dao_addBook_codes book w :
  exists r, fst (LibraryDao.addBook book w) = Returned r
            /\ (err_code r = None \/ err_code r = Some DB).
Proof.
  pose proof (post_run _ _ w (dao_addBook_spec book (db w))) as H.
  inversion H; eexists; (split; [reflexivity | cbn; auto]).
Qed.

(** [findBooks] fails with MISSING, with BAD_REQ when the search has no
    word, or with DB. *)
Lemma findBooks_codes req w :
  exists r, fst (LendingLibrary.findBooks req w) = Returned r
            /\ (err_code r = None \/ err_code r = Some MISSING
                \/ err_code r = Some DB
                \/ (err_code r = Some BAD_REQ
                    /\ match_words (LendingLibrary.str_of (Js.get req "search"))
                       = [])).
Proof.
  apply (post_run (LendingLibrary.findBooks req)
           (fun o _ => exists r, o = Returned r /\ _) w).
  unfold LendingLibrary.findBooks.
  apply post_try_catch.
  destruct (_ || _); [apply post_ret; eexists; split; [reflexivity |]; cbn; auto |].
  cbn zeta.
  destruct (match_words _) eqn:Hw; cbn [List.length Nat.eqb];
    [apply post_ret; eexists; split; [reflexivity |]; cbn; auto |].
  apply post_bind.
  eapply post_consequence; [apply dao_findBooksBySearch_spec |].
  intros o d' (_ & r & -> & Hr). apply post_ret.
  eexists. split; [reflexivity |]. destruct Hr; auto.
Qed.

(** C1, as the code has it: The Hobbit is stored with 2 copies; an
    [addBook] request with the same isbn and another title, for which
    [compareBook] answers "title", does not fail: it returns the
    requested book and raises the stored nCopies to 3. *)
Theorem addBook_accepts_a_differing_title :
  let stored := hobbit 2 in
  let req := book_req hobbit_isbn "The Lord of the Rings" 1 in
  let r := LendingLibrary.addBook 2024 req (mkWorld (hobbit_db 2) []) in
  reached [AddBook 2024 (hobbit_req 2)] [] = hobbit_db 2
  /\ (exists book,
        LendingLibrary.validateBook 2024 req = okResult book
        /\ LendingLibrary.compareBook stored book = Some "title"
        /\ fst r = Returned (okResult book))
  /\ db (snd r) = hobbit_db 3.
Proof.
  cbv zeta. split; [reflexivity |]. split; [| reflexivity].
  eexists. repeat split; reflexivity.
Qed.

(** C2, as the code has it: with The Hobbit by J.R.R. Tolkien in the
    catalogue, the search "tolkien hobbit" has the tokens tolkien and
    hobbit, the book matches both in the sense of the specification,
    the DAO queries the one pattern tolkien.*hobbit, and [findBooks]
    returns no book. *)
Theorem findBooks_misses_words_in_different_fields :
  let req := [("search", Js.Str "tolkien hobbit");
              ("index", Js.Num (Js.of_Z 0));
              ("count", Js.Num (Js.of_Z 5))] in
  match_words "tolkien hobbit" = ["tolkien"; "hobbit"]
  /\ spec_matches ["tolkien"; "hobbit"] (hobbit 2) = true
  /\ LibraryDao.multiWordSearch ["tolkien"; "hobbit"] = Some "tolkien.*hobbit"
  /\ fst (LendingLibrary.findBooks req (mkWorld (hobbit_db 2) []))
     = Returned (okResult []).
Proof. cbv zeta. repeat split; reflexivity. Qed.

(** C3, as the code has it: when the first store call of
    [checkoutBook] or [returnBook] throws, the DAO reports code DB and
    the service returns code BAD_REQ to the caller. *)
Theorem store_fault_reported_as_BAD_REQ :
  let w := mkWorld (hobbit_db 2) [true] in
  let req := lend_req "p1" hobbit_isbn in
  fst (LibraryDao.checkoutBook "p1" hobbit_isbn w)
  = Returned (errResult "store failure" DB)
  /\ fst (LendingLibrary.checkoutBook req w)
     = Returned (errResult "Issue checking out this book" BAD_REQ)
  /\ fst (LibraryDao.returnBook "p1" hobbit_isbn w)
     = Returned (errResult "store failure" DB)
  /\ fst (LendingLibrary.returnBook req w)
     = Returned (errResult "Issue returning this book" BAD_REQ).
Proof. cbv zeta. repeat split; reflexivity. Qed.

(** C4, as the code has it: an [addBook] request whose pages is the
    number 0, and one whose nCopies is the number 1.5, fail with code
    BAD_TYPE. *)
Theorem pages_or_nCopies_not_positive_is_BAD_TYPE :
  let zero_pages := counts_req (Js.Num (Js.of_Z 0)) (Js.Num (Js.of_Z 1)) in
  let half_copy := counts_req (Js.Num (Js.of_Z 310)) (Js.Num (Js.Fin (3 # 2))) in
  fst (LendingLibrary.addBook 2024 zero_pages (mkWorld empty_db []))
  = Returned (errResult "Pages must be a positive integer" BAD_TYPE)
  /\ fst (LendingLibrary.addBook 2024 half_copy (mkWorld empty_db []))
     = Returned (errResult "nCopies must be a positive integer" BAD_TYPE).
Proof. cbv zeta. split; reflexivity. Qed.

(** C5, as the code has it: a [checkoutBook] or [returnBook] request
    whose patronId or isbn is present and is a number fails with code
    MISSING. *)
Theorem non_string_lending_field_is_MISSING :
  let w := mkWorld (hobbit_db 2) [] in
  fst (LendingLibrary.checkoutBook
         [("patronId", Js.Num (Js.of_Z 42)); ("isbn", Js.Str hobbit_isbn)] w)
  = Returned (errResult "Missing or invalid patronId" MISSING)
  /\ fst (LendingLibrary.checkoutBook
            [("patronId", Js.Str "p1"); ("isbn", Js.Num (Js.of_Z 7))] w)
     = Returned (errResult "Missing or invalid ISBN" MISSING)
  /\ fst (LendingLibrary.returnBook
            [("patronId", Js.Num (Js.of_Z 42)); ("isbn", Js.Str hobbit_isbn)] w)
     = Returned (errResult "Missing or invalid patronId" MISSING)
  /\ fst (LendingLibrary.returnBook
            [("patronId", Js.Str "p1"); ("isbn", Js.Num (Js.of_Z 7))] w)
     = Returned (errResult "Missing or invalid ISBN" MISSING).
Proof. cbv zeta. repeat split; reflexivity. Qed.

(** C6, as the code has it: a [findBooks] request whose index or
    count is a string, or the number -1, does not fail: the default
    takes the place of the field and the matching books are
    returned. *)
Theorem findBooks_ignores_bad_index_and_count :
  let w := mkWorld (hobbit_db 2) [] in
  fst (LendingLibrary.findBooks
         [("search", Js.Str "hobbit"); ("index", Js.Str "x")] w)
  = Returned (okResult [hobbit 2])
  /\ fst (LendingLibrary.findBooks
            [("search", Js.Str "hobbit"); ("count", Js.Str "x")] w)
     = Returned (okResult [hobbit 2])
  /\ fst (LendingLibrary.findBooks
            [("search", Js.Str "hobbit"); ("index", Js.Num (Js.of_Z (-1)))] w)
     = Returned (okResult [hobbit 2])
  /\ fst (LendingLibrary.findBooks
            [("search", Js.Str "hobbit"); ("count", Js.Num (Js.of_Z (-1)))] w)
     = Returned (okResult [hobbit 2]).
Proof. cbv zeta. repeat split; reflexivity. Qed.

(** ** Runs of the model *)

(** One copy added and checked out. *)
Example last_copy_out_store :
  reached last_copy_out []
  = mkDb [hobbit 0] [mkPatron "p1" [hobbit_isbn]].
Proof. reflexivity. Qed.

(** The same, with the sixth store call (the update of the patron)
    failing: the copy is taken and nobody holds it. *)
Example last_copy_out_patron_update_fails :
  reached last_copy_out [false; false; false; false; false; true]
  = mkDb [hobbit 0] [].
Proof. reflexivity. Qed.

(** The book is given back: the count is 1 again and the record of the
    patron stays, holding nothing. *)
Example last_copy_back :
  reached (last_copy_out ++ [ReturnBook (lend_req "p1" hobbit_isbn)]) []
  = mkDb [hobbit 1] [mkPatron "p1" []].
Proof. reflexivity. Qed.

(** ** Runs of the proved properties *)


(** The last copy is out: the next checkout is refused. *)
Lemma copies_never_negative_and_none_left_refused_witness :
  (exists msg,
      fst (LendingLibrary.checkoutBook (lend_req "p2" hobbit_isbn)
             (mkWorld (reached last_copy_out []) []))
      = Returned (errResult msg BAD_REQ))
  /\ db (snd (LendingLibrary.checkoutBook (lend_req "p2" hobbit_isbn)
                (mkWorld (reached last_copy_out []) [])))
     = reached last_copy_out [].
Proof.
  apply (proj2 (copies_never_negative_and_none_left_refused
                  last_copy_out [])); reflexivity.
Defined.


(** * Further properties of the code *)

(** ** addBook *)

Lemma validateBook_missing y req field :
  In field LendingLibrary.requiredFields ->
  Js.has req field = false ->
  LendingLibrary.validateBook y req
  = errResult "Missing required field: ${field}" MISSING.
Proof.
  intros Hin Hhas. unfold LendingLibrary.validateBook.
  replace (existsb _ LendingLibrary.requiredFields) with true; [reflexivity |].
  symmetry. apply existsb_exists. exists field. now rewrite Hhas.
Qed.

Lemma addBook_rejected y req w msg c :
  LendingLibrary.validateBook y req = errResult msg c ->
  LendingLibrary.addBook y req w = (Returned (errResult msg c), w).
Proof.
  intros Hv. unfold LendingLibrary.addBook, try_catch. now rewrite Hv.
Qed.

(** X1: an [addBook] request that lacks one of the seven required
    fields fails with code MISSING, and no store call is made: the
    world is as before. *)
Theorem addBook_missing_field_is_MISSING :
  forall (y : Z) (req : Js.object) (w : World) (field : string),
    In field LendingLibrary.requiredFields ->
    Js.has req field = false ->
    LendingLibrary.addBook y req w
    = (Returned (errResult "Missing required field: ${field}" MISSING), w).
Proof.
  intros y req w field Hin Hhas.
  apply addBook_rejected, (validateBook_missing y req field Hin Hhas).
Qed.

(** X2: whenever [addBook] fails with a code other than DB, it has
    made no store call: the database and the fault schedule are as
    before. *)
Theorem addBook_request_error_makes_no_store_call :
  forall (y : Z) (req : Js.object) (w : World) (msg : string) (c : code),
    fst (LendingLibrary.addBook y req w) = Returned (errResult msg c) ->
    c <> DB ->
    snd (LendingLibrary.addBook y req w) = w.
Proof.
  intros y req w msg c Hr Hc.
  destruct (LendingLibrary.validateBook y req) as [book | m c'] eqn:Hv.
  - exfalso. revert Hr.
    unfold LendingLibrary.addBook, try_catch, bind. rewrite Hv.
    destruct (dao_addBook_codes book w) as (r & Hdao & Hcodes).
    destruct (LibraryDao.addBook book w) as [[r' | e] w']; cbn in *;
      [| discriminate].
    injection Hdao as ->. intros Hr. injection Hr as ->.
    cbn in Hcodes. destruct Hcodes as [H | H]; [discriminate | congruence].
  - now rewrite (addBook_rejected y req w m c' Hv).
Qed.

Lemma addBook_no_fault y req d book :
  LendingLibrary.validateBook y req = okResult book ->
  LendingLibrary.addBook y req (mkWorld d [])
  = (Returned (okResult book),
     mkWorld (match find (has_isbn (isbn book)) (booksCollection d) with
              | Some _ => inc_copies (isbn book) (nCopies book) d
              | None => insert_book book d
              end) []).
Proof.
  intros Hv.
  unfold LendingLibrary.addBook, LibraryDao.addBook, Books.findOne,
    Books.updateOne_inc, Books.insertOne, try_catch, bind, store_call, ret.
  rewrite Hv. cbn [faults db].
  destruct (find _ _) eqn:Hf; cbn [faults db]; rewrite find_existsb, Hf;
    reflexivity.
Qed.

Lemma update_one_ext_first {A} (p : A -> bool) (f g : A -> A) l :
  (forall x, find p l = Some x -> f x = g x) ->
  update_one p f l = update_one p g l.
Proof.
  induction l as [| y l IH]; cbn; [reflexivity |].
  destruct (p y); intros H; [now rewrite H | now rewrite IH].
Qed.

Lemma inc_nCopies_exact delta b :
  Z.abs (nCopies b + delta) <= 2 ^ 53 ->
  inc_nCopies delta b = add_to_nCopies delta b.
Proof.
  intros H. unfold inc_nCopies, add_to_nCopies. now rewrite binary64_small.
Qed.

Lemma inc_copies_exact i delta d :
  (forall b, find (has_isbn i) (booksCollection d) = Some b ->
             Z.abs (nCopies b + delta) <= 2 ^ 53) ->
  inc_copies i delta d = add_copies i delta d.
Proof.
  intros H. unfold inc_copies, add_copies. f_equal.
  apply update_one_ext_first. intros b Hb. now apply inc_nCopies_exact, H.
Qed.

(** X3: when no store call fails and a stored count plus the nCopies
    of the request is at most 2^53, an [addBook] request that passes
    the checks succeeds and returns the book built from the request; a
    new isbn is inserted after the stored books, a stored isbn has its
    count raised by the nCopies of the request. *)
Theorem addBook_valid_request_succeeds_without_fault :
  forall (y : Z) (req : Js.object) (d : Db) (book : XBook),
    LendingLibrary.validateBook y req = okResult book ->
    (forall b, find (has_isbn (isbn book)) (booksCollection d) = Some b ->
               0 <= nCopies b /\ nCopies b + nCopies book <= 2 ^ 53) ->
    let r := LendingLibrary.addBook y req (mkWorld d []) in
    fst r = Returned (okResult book)
    /\ db (snd r)
       = match find (has_isbn (isbn book)) (booksCollection d) with
         | Some _ => add_copies (isbn book) (nCopies book) d
         | None => insert_book book d
         end.
Proof.
  intros y req d book Hv Hmax r. subst r.
  rewrite (addBook_no_fault y req d book Hv). split; [reflexivity |].
  apply validateBook_nCopies in Hv as [_ Hpos]. cbn [snd db].
  destruct (find _ _) as [b0 |] eqn:Hf; [| reflexivity].
  apply inc_copies_exact. intros b Hb. rewrite Hf in Hb.
  injection Hb as <-. destruct (Hmax b0 eq_refl). lia.
Qed.

Lemma find_update_one_other {A} (p q : A -> bool) (f : A -> A) l :
  (forall x, q (f x) = q x) ->
  (forall x, q x = true -> p x = false) ->
  find q (update_one p f l) = find q l.
Proof.
  intros Hf Hpq. induction l as [| x l IH]; cbn; [reflexivity |].
  destruct (p x) eqn:Hp; cbn.
  - rewrite Hf. destruct (q x) eqn:Hq; [| reflexivity].
    apply Hpq in Hq. congruence.
  - destruct (q x); [reflexivity | exact IH].
Qed.

Lemma has_isbn_other i j b : i <> j -> has_isbn j b = true -> has_isbn i b = false.
Proof.
  unfold has_isbn. intros Hij Hj. apply String.eqb_eq in Hj.
  apply String.eqb_neq. congruence.
Qed.

Lemma update_one_length {A} (p : A -> bool) f l :
  List.length (update_one p f l) = List.length l.
Proof. induction l as [| x l IH]; cbn; [| destruct (p x); cbn]; auto. Qed.

(** X4: a successful [addBook] for an isbn that is stored with a
    count that, with the nCopies of the request added, is at most 2^53,
    adds the nCopies of the request to the stored record and changes
    nothing else: the other fields of that record, the records found
    for any other isbn, the number of records and the patrons are as
    before. *)
Theorem addBook_on_stored_isbn_only_adds_copies :
  forall (y : Z) (req : Js.object) (w : World) (book existing : XBook),
    find (has_isbn (isbn_of req)) (booksCollection (db w)) = Some existing ->
    0 <= nCopies existing ->
    nCopies existing + LendingLibrary.int_of (Js.get req "nCopies")
    <= 2 ^ 53 ->
    fst (LendingLibrary.addBook y req w) = Returned (okResult book) ->
    let d' := db (snd (LendingLibrary.addBook y req w)) in
    find (has_isbn (isbn_of req)) (booksCollection d')
    = Some (add_to_nCopies (LendingLibrary.int_of (Js.get req "nCopies"))
                           existing)
    /\ (forall j, j <> isbn_of req ->
          find (has_isbn j) (booksCollection d')
          = find (has_isbn j) (booksCollection (db w)))
    /\ List.length (booksCollection d') = List.length (booksCollection (db w))
    /\ patronCollection d' = patronCollection (db w).
Proof.
  intros y req w book existing Hex Hn Hmax Hok d'. subst d'.
  apply addBook_ok_inv in Hok as [Hv ->].
  destruct (validateBook_year_free _ _ _ _ _ Hv Hv) as [_ Hi].
  apply validateBook_nCopies in Hv as [Hk Hpos].
  rewrite Hi, Hex, Hk. cbn [inc_copies booksCollection patronCollection].
  repeat split.
  - rewrite find_update_one, Hex by reflexivity. cbn [option_map].
    f_equal. apply inc_nCopies_exact. lia.
  - intros j Hj. apply find_update_one_other; [reflexivity |].
    intros x. now apply has_isbn_other.
  - apply update_one_length.
Qed.

Lemma get_with_year req n k :
  (k =? "year")%string = false ->
  Js.get (("year", Js.Num n) :: req) k = Js.get req k.
Proof.
  intros Hk. unfold Js.get. cbn [Js.own].
  rewrite String.eqb_sym, Hk. reflexivity.
Qed.

Lemma missing_with_year req n :
  existsb (fun field => negb (Js.has req field)) LendingLibrary.requiredFields
  = false ->
  existsb (fun field => negb (Js.has (("year", Js.Num n) :: req) field))
          LendingLibrary.requiredFields = false.
Proof.
  intros H. apply not_true_iff_false. intros Hex.
  apply existsb_exists in Hex as (f & Hin & Hf).
  assert (Hreq : negb (Js.has req f) = false).
  { destruct (negb (Js.has req f)) eqn:Hn; [| reflexivity].
    rewrite <- H. symmetry. apply existsb_exists. eauto. }
  unfold Js.has in *. cbn [Js.own] in Hf.
  destruct ("year" =? f)%string; [discriminate | congruence].
Qed.

(** X5: [addBook] does not test that the year is an integer: a
    request that passes the checks still passes them, with the same
    book but for the year, when its year is replaced by any number
    that is neither below 1448 nor above the current year. *)
Theorem addBook_takes_any_number_in_range_as_year :
  forall (y : Z) (req : Js.object) (book : XBook) (n : Js.num),
    LendingLibrary.validateBook y req = okResult book ->
    Js.lt n (Js.of_Z 1448) = false ->
    Js.gt n (Js.of_Z y) = false ->
    LendingLibrary.validateBook y (("year", Js.Num n) :: req)
    = okResult (mkXBook (isbn book) (title book) (pages book) (authors book)
                        (publisher book) n (nCopies book)).
Proof.
  intros y req book n Hv Hlo Hhi. unfold LendingLibrary.validateBook in *.
  walk_checks Hv. injection Hv as <-.
  rewrite missing_with_year by assumption.
  rewrite (get_with_year req n "isbn"), (get_with_year req n "title"),
    (get_with_year req n "pages"), (get_with_year req n "authors"),
    (get_with_year req n "publisher"), (get_with_year req n "nCopies")
    by reflexivity.
  repeat match goal with H : ?c = false |- context [if ?c then _ else _] =>
           rewrite H end.
  change (Js.get (("year", Js.Num n) :: req) "year") with (Js.Num n).
  cbn [LendingLibrary.is_type Js.typeof negb LendingLibrary.num_of].
  rewrite Hlo, Hhi.
  repeat match goal with H : ?c = false |- context [if ?c then _ else _] =>
           rewrite H end.
  reflexivity.
Qed.

(** ** Invariants along every sequence of operations *)

Section Invariant.
Variable P : Db -> Prop.
Hypothesis P_addBook : forall y req book d o d',
  LendingLibrary.validateBook y req = okResult book ->
  addBook_spec book d o d' -> P d -> P d'.
Hypothesis P_checkout : forall p i d o d',
  checkout_spec p i d o d' -> P d -> P d'.
Hypothesis P_return : forall p i d o d',
  return_spec p i d o d' -> P d -> P d'.
Hypothesis P_no_books : forall d, P d -> P (mkDb [] (patronCollection d)).
Hypothesis P_empty : P empty_db.

Lemma run_op_invariant op w : P (db w) -> P (db (run_op op w)).
Proof.
  intros Hw. destruct op as [y req | req | req | req |]; cbn [run_op].
  - pose proof (post_run _ _ w (service_addBook_spec_holds y req (db w))) as H.
    unfold service_addBook_spec in H.
    destruct (LendingLibrary.validateBook y req) as [book | msg c] eqn:Hv.
    + eapply P_addBook; eauto.
    + destruct H as [_ ->]. exact Hw.
  - pose proof (post_run _ _ w (service_findBooks_spec req (db w))) as [-> _].
    exact Hw.
  - pose proof (post_run _ _ w (service_checkoutBook_spec req (db w))) as H.
    unfold service_checkout_spec in H. destruct (lend_args_ok req).
    + destruct H as (r & H & _). eapply P_checkout; eauto.
    + destruct H as [-> _]. exact Hw.
  - pose proof (post_run _ _ w (service_returnBook_spec req (db w))) as H.
    unfold service_return_spec in H. destruct (lend_args_ok req).
    + destruct H as (r & H & _). eapply P_return; eauto.
    + destruct H as [-> _]. exact Hw.
  - pose proof (post_run _ _ w (service_clear_spec (db w)))
      as [_ [-> | [-> | ->]]]; auto.
Qed.

Lemma run_ops_invariant ops w : P (db w) -> P (db (run_ops ops w)).
Proof.
  revert w. induction ops as [| op ops IH]; intros w Hw; cbn; [exact Hw |].
  apply IH, run_op_invariant, Hw.
Qed.

Lemma reached_invariant ops fs : P (reached ops fs).
Proof. apply run_ops_invariant, P_empty. Qed.

End Invariant.

Lemma authors_checked l :
  existsb LendingLibrary.bad_author l = false ->
  forallb (fun a => negb (trim_is_empty a)) (map LendingLibrary.str_of l) = true.
Proof.
  induction l as [| a l IH]; cbn; [reflexivity |].
  intros H. apply orb_false_iff in H as [Ha Hl].
  unfold LendingLibrary.bad_author in Ha. apply orb_false_iff in Ha as [_ Ha].
  now rewrite Ha, IH.
Qed.

Lemma validateBook_checked y req book :
  LendingLibrary.validateBook y req = okResult book ->
  checked_book book = true.
Proof.
  unfold LendingLibrary.validateBook. intros H. walk_checks H.
  injection H as <-. unfold checked_book.
  cbn [isbn title pages authors publisher year].
  repeat match goal with
         | H : negb _ = false |- _ => apply negb_false_iff in H
         | H : _ || _ = false |- _ => apply orb_false_iff in H as [? ?]
         end.
  repeat (apply andb_true_iff; split);
    try match goal with H : ?x = _ |- context [?x] => now rewrite H end.
  - apply Z.ltb_lt. now apply positive_integer_int_of.
  - rewrite length_map.
    match goal with H : ?x = _ |- context [?x] => now rewrite H end.
  - now apply authors_checked.
Qed.

Lemma checked_update_one i delta l :
  Forall (fun b => checked_book b = true) l ->
  Forall (fun b => checked_book b = true)
         (update_one (has_isbn i) (inc_nCopies delta) l).
Proof. intros H. apply Forall_update_one; auto. Qed.

(** X6: after every sequence of operations on an empty store, under
    every schedule of store faults, every stored book has an isbn of
    the form ddd-ddd-ddd-d, a title and a publisher that are not blank,
    a positive page count, at least one author and no blank author,
    and a year not below 1448. *)
Theorem stored_books_pass_the_checks_of_addBook :
  forall (ops : list Op) (fs : list bool),
    Forall (fun b => checked_book b = true) (booksCollection (reached ops fs)).
Proof.
  intros ops fs. apply (reached_invariant books_checked); unfold books_checked.
  - intros y req book d o d' Hv H Hd. apply validateBook_checked in Hv.
    destruct H; cbn; auto using checked_update_one.
    apply Forall_app. split; [exact Hd | repeat constructor; exact Hv].
  - intros p i d o d' H Hd. destruct H; cbn; auto using checked_update_one.
  - intros p i d o d' H Hd. destruct H; cbn; auto using checked_update_one.
  - constructor.
  - constructor.
Qed.

Lemma map_update_one {A B} (g : A -> B) (p : A -> bool) (f : A -> A) l :
  (forall x, g (f x) = g x) -> map g (update_one p f l) = map g l.
Proof.
  intros Hg. induction l as [| x l IH]; cbn; [reflexivity |].
  destruct (p x); cbn; [now rewrite Hg | now rewrite IH].
Qed.

Lemma NoDup_snoc {A} (l : list A) x : NoDup l -> ~ In x l -> NoDup (l ++ [x]).
Proof.
  intros Hl Hx. apply NoDup_app; [exact Hl | repeat constructor; intros [] |].
  intros y Hy [<- | []]. contradiction.
Qed.

Lemma find_none_not_in_keys {A} (key : A -> string) k l :
  find (fun x => (key x =? k)%string) l = None -> ~ In k (map key l).
Proof.
  intros Hf Hin. apply in_map_iff in Hin as (x & Hx & Hin).
  apply (find_none _ _ Hf) in Hin. cbn in Hin.
  rewrite Hx, String.eqb_refl in Hin. discriminate.
Qed.

Lemma keys_inc_copies i delta d : keys_unique d -> keys_unique (inc_copies i delta d).
Proof.
  unfold keys_unique, inc_copies. cbn. now rewrite map_update_one.
Qed.

Lemma keys_add_hold p i d : keys_unique d -> keys_unique (add_hold p i d).
Proof.
  unfold keys_unique, add_hold. cbn. intros [Hb Hp]. split; [exact Hb |].
  rewrite find_existsb. destruct (find _ _) eqn:Hf.
  - now rewrite map_update_one.
  - rewrite map_app. apply NoDup_snoc; [exact Hp |].
    now apply (find_none_not_in_keys id).
Qed.

Lemma keys_remove_hold p i d : keys_unique d -> keys_unique (remove_hold p i d).
Proof.
  unfold keys_unique, remove_hold. cbn. now rewrite map_update_one.
Qed.

(** X7: after every sequence of operations on an empty store, under
    every schedule of store faults, no two stored books have the same
    isbn and no two patron records have the same id. *)
Theorem stored_keys_stay_unique :
  forall (ops : list Op) (fs : list bool),
    NoDup (map isbn (booksCollection (reached ops fs)))
    /\ NoDup (map id (patronCollection (reached ops fs))).
Proof.
  intros ops fs. apply (reached_invariant keys_unique).
  - intros y req book d o d' _ H Hd.
    destruct H; auto using keys_inc_copies.
    destruct Hd as [Hb Hp]. split; [| exact Hp]. cbn. rewrite map_app.
    apply NoDup_snoc; [exact Hb |]. now apply (find_none_not_in_keys isbn).
  - intros p i d o d' H Hd.
    destruct H; auto using keys_inc_copies, keys_add_hold.
  - intros p i d o d' H Hd.
    destruct H; auto using keys_inc_copies, keys_remove_hold.
  - intros d [_ Hp]. split; [constructor | exact Hp].
  - split; constructor.
Qed.

(** ** checkoutBook and returnBook *)

Lemma can_checkout_iff p i d : can_checkout p i d = true <-> may_checkout p i d.
Proof.
  unfold can_checkout, may_checkout. split.
  - destruct (find _ _) as [b |]; [| discriminate]. intros H.
    apply andb_true_iff in H as [Hpos Hheld].
    apply Z.ltb_lt in Hpos. apply negb_true_iff in Hheld. eauto.
  - intros (b & -> & Hpos & ->). apply Z.ltb_lt in Hpos. now rewrite Hpos.
Qed.

Lemma lend_args_ok_fields req :
  lend_args_ok req = true ->
  negb (Js.truthy (Js.get req "patronId"))
  || negb (LendingLibrary.is_type Js.TString (Js.get req "patronId")) = false
  /\ negb (Js.truthy (Js.get req "isbn"))
     || negb (LendingLibrary.is_type Js.TString (Js.get req "isbn")) = false.
Proof.
  unfold lend_args_ok. intros H.
  repeat (apply andb_true_iff in H as [H ?]).
  repeat match goal with H : _ = true |- _ => rewrite H; clear H end.
  split; reflexivity.
Qed.

Lemma checkoutBook_no_fault req d :
  lend_args_ok req = true ->
  LendingLibrary.checkoutBook req (mkWorld d [])
  = if can_checkout (patron_of req) (isbn_of req) d
    then (Returned (okResult tt),
          mkWorld (add_hold (patron_of req) (isbn_of req)
                     (inc_copies (isbn_of req) (-1) d)) [])
    else (Returned (errResult "Issue checking out this book" BAD_REQ),
          mkWorld d []).
Proof.
  intros Hargs. destruct (lend_args_ok_fields req Hargs) as [Hp Hi].
  unfold LendingLibrary.checkoutBook, try_catch at 1. cbn zeta.
  rewrite Hp, Hi. fold (patron_of req) (isbn_of req).
  unfold can_checkout, LibraryDao.checkoutBook, Books.findOne, Patrons.findOne,
    Books.updateOne_inc, Patrons.updateOne_addToSet, try_catch, bind,
    store_call, ret.
  cbn [faults db].
  destruct (find _ (booksCollection d)) as [b |]; [| reflexivity].
  rewrite existsb_held.
  destruct (Z.leb_spec (nCopies b) 0) as [Hle | Hgt].
  - replace (0 <? nCopies b) with false by (symmetry; apply Z.ltb_ge; lia).
    reflexivity.
  - replace (0 <? nCopies b) with true by (symmetry; apply Z.ltb_lt; lia).
    cbn [faults db andb].
    destruct (find _ (patronCollection d)) as [x |];
      [destruct (existsb _ (checkedOutBooks x)) |]; reflexivity.
Qed.

(** X8: when no store call fails, a well-formed [checkoutBook]
    request succeeds exactly when the book is stored with a positive
    count and the patron does not hold it. *)
Theorem checkoutBook_succeeds_exactly_when_allowed :
  forall (req : Js.object) (d : Db),
    lend_args_ok req = true ->
    (fst (LendingLibrary.checkoutBook req (mkWorld d []))
     = Returned (okResult tt)
     <-> can_checkout (patron_of req) (isbn_of req) d = true).
Proof.
  intros req d Hargs. rewrite (checkoutBook_no_fault req d Hargs).
  destruct (can_checkout _ _ d); split; cbn; congruence.
Qed.

(** X9: under every schedule of store faults, a well-formed
    [checkoutBook] request for a book that is not stored, has no copy
    left or is held by the patron fails with code BAD_REQ and leaves
    the store as it is. *)
Theorem checkoutBook_refused_when_not_allowed :
  forall (req : Js.object) (w : World),
    lend_args_ok req = true ->
    can_checkout (patron_of req) (isbn_of req) (db w) = false ->
    fst (LendingLibrary.checkoutBook req w)
    = Returned (errResult "Issue checking out this book" BAD_REQ)
    /\ db (snd (LendingLibrary.checkoutBook req w)) = db w.
Proof.
  intros req w Hargs Hno.
  assert (Hmay : ~ may_checkout (patron_of req) (isbn_of req) (db w)).
  { intros H. apply can_checkout_iff in H. congruence. }
  destruct (post_run _ _ w (checkout_refused_inv req _ Hargs Hmay)) as [H1 H2].
  now split.
Qed.

Lemma held_add_hold p i d :
  held p (add_hold p i d) = addToSet i (held p d).
Proof.
  unfold held, add_hold. cbn [patronCollection].
  destruct (existsb _ _) eqn:He; rewrite find_existsb in He.
  - rewrite find_update_one by reflexivity.
    destruct (find _ _); [reflexivity | discriminate].
  - destruct (find _ (patronCollection d)) eqn:Hf; [discriminate |].
    rewrite find_app_none by exact Hf. cbn.
    unfold has_id. cbn. now rewrite String.eqb_refl.
Qed.

Lemma has_id_other p q x : p <> q -> has_id q x = true -> has_id p x = false.
Proof.
  unfold has_id. intros Hpq Hq. apply String.eqb_eq in Hq.
  apply String.eqb_neq. congruence.
Qed.

Lemma find_append {A} (p : A -> bool) l l' :
  find p (l ++ l')
  = match find p l with Some x => Some x | None => find p l' end.
Proof.
  induction l as [| x l IH]; cbn; [reflexivity |].
  destruct (p x); [reflexivity | exact IH].
Qed.

Lemma held_add_hold_other p q i d : q <> p -> held q (add_hold p i d) = held q d.
Proof.
  intros Hq. unfold held, add_hold. cbn [patronCollection].
  destruct (existsb _ _).
  - rewrite find_update_one_other; [reflexivity | reflexivity |].
    intros x. apply has_id_other. congruence.
  - rewrite find_append. destruct (find _ _); [reflexivity |]. cbn.
    unfold has_id. cbn. apply String.eqb_neq in Hq.
    rewrite String.eqb_sym, Hq. reflexivity.
Qed.



Lemma copies_inc_copies_other i j delta d :
  j <> i -> copies j (inc_copies i delta d) = copies j d.
Proof.
  intros Hj. unfold copies, inc_copies. cbn [booksCollection].
  rewrite find_update_one_other; [reflexivity | reflexivity |].
  intros x. apply has_isbn_other. congruence.
Qed.

(** X10: a successful [checkoutBook] on a book stored with a count of
    at most 2^53 lowers the count by one, from a positive value, and
    appends the isbn to the books held by the patron; the counts of
    other books and the books held by other patrons are as before. *)
Theorem checkoutBook_success_effect :
  forall (req : Js.object) (w : World) (n : Z),
    fst (LendingLibrary.checkoutBook req w) = Returned (okResult tt) ->
    copies (isbn_of req) (db w) = Some n ->
    n <= 2 ^ 53 ->
    let p := patron_of req in
    let i := isbn_of req in
    let d' := db (snd (LendingLibrary.checkoutBook req w)) in
    0 < n
    /\ copies i d' = Some (n - 1)
    /\ held p d' = (held p (db w) ++ [i])%list
    /\ (forall j, j <> i -> copies j d' = copies j (db w))
    /\ (forall q, q <> p -> held q d' = held q (db w)).
Proof.
  intros req w n Hok Hn Hmax p i d'. subst p i d'.
  apply checkout_ok_inv in Hok as [(b & Hb & Hpos & Hfree) ->].
  assert (Hnb : nCopies b = n).
  { unfold copies in Hn. rewrite Hb in Hn. now injection Hn. }
  split; [lia |]. split; [| split; [| split]].
  - change (copies ?i (add_hold ?p ?j ?d)) with (copies i d).
    rewrite copies_inc_copies, Hn. cbn [option_map].
    rewrite binary64_small by lia. reflexivity.
  - rewrite held_add_hold.
    change (held ?p (inc_copies ?i ?k ?d)) with (held p d).
    unfold addToSet. now rewrite Hfree.
  - intros j Hj. change (copies ?i (add_hold ?p ?j ?d)) with (copies i d).
    now apply copies_inc_copies_other.
  - intros q Hq. now rewrite held_add_hold_other.
Qed.

(** X11: after a successful [checkoutBook], the same request again
    fails with code BAD_REQ and changes nothing. *)
Theorem second_checkoutBook_is_refused :
  forall (req : Js.object) (w : World),
    let r1 := LendingLibrary.checkoutBook req w in
    let r2 := LendingLibrary.checkoutBook req (snd r1) in
    fst r1 = Returned (okResult tt) ->
    fst r2 = Returned (errResult "Issue checking out this book" BAD_REQ)
    /\ db (snd r2) = db (snd r1).
Proof.
  intros req w r1 r2 Hok.
  assert (Hargs : lend_args_ok req = true).
  { pose proof (post_run _ _ w (service_checkoutBook_spec req (db w))) as H.
    unfold service_checkout_spec in H. fold r1 in H. rewrite Hok in H.
    destruct (lend_args_ok req); [reflexivity |].
    destruct H as (_ & msg & H). discriminate. }
  apply checkout_ok_inv in Hok as [_ Hd]. fold r1 in Hd.
  assert (Hheld : In (isbn_of req) (held (patron_of req) (db (snd r1)))).
  { rewrite Hd, held_add_hold. unfold addToSet.
    destruct (existsb _ _) eqn:He.
    - apply existsb_exists in He as (x & Hx & He).
      apply String.eqb_eq in He. now subst.
    - apply in_or_app. right. now left. }
  destruct (post_run _ _ (snd r1)
              (held_book_checkout_refused req _ Hargs Hheld)) as [H1 H2].
  now split.
Qed.

Lemma dec_copies_exact p i d :
  (forall n, copies i d = Some n -> n <= 2 ^ 53) ->
  can_checkout p i d = true ->
  inc_copies i (-1) d = add_copies i (-1) d.
Proof.
  intros Hmax Hcan. apply inc_copies_exact. intros b Hb.
  unfold can_checkout in Hcan. rewrite Hb in Hcan.
  apply andb_true_iff in Hcan as [Hpos _]. apply Z.ltb_lt in Hpos.
  specialize (Hmax (nCopies b)). unfold copies in Hmax. rewrite Hb in Hmax.
  specialize (Hmax eq_refl). lia.
Qed.

(** X12: a [checkoutBook] that does not succeed, on a book stored with
    a count of at most 2^53, leaves the patrons as they are; the store
    is unchanged, or the checks had passed and only the count of the
    book has been lowered by one. *)
Theorem failed_checkoutBook_adds_no_hold :
  forall (req : Js.object) (w : World),
    fst (LendingLibrary.checkoutBook req w) <> Returned (okResult tt) ->
    (forall n, copies (isbn_of req) (db w) = Some n -> n <= 2 ^ 53) ->
    let d' := db (snd (LendingLibrary.checkoutBook req w)) in
    patronCollection d' = patronCollection (db w)
    /\ (d' = db w
        \/ (can_checkout (patron_of req) (isbn_of req) (db w) = true
            /\ d' = add_copies (isbn_of req) (-1) (db w))).
Proof.
  intros req w Hfail Hmax d'. subst d'.
  pose proof (post_run _ _ w (service_checkoutBook_spec req (db w))) as H.
  unfold service_checkout_spec in H.
  set (o := fst (LendingLibrary.checkoutBook req w)) in *.
  set (d1 := db (snd (LendingLibrary.checkoutBook req w))) in *.
  clearbody o d1. destruct (lend_args_ok req).
  - destruct H as (r & H & ->). inversion H; subst; auto.
    + match goal with Hm : may_checkout _ _ _ |- _ =>
        apply can_checkout_iff in Hm;
        rewrite (dec_copies_exact _ _ _ Hmax Hm) end.
      split; [reflexivity |]. right. now split.
    + contradiction.
  - destruct H as [-> _]. auto.
Qed.

(** X13: when the checks of [checkoutBook] pass, on a book stored with
    a count of at most 2^53, and the fourth store call (the update of
    the patron) fails, the caller gets BAD_REQ and the count of the
    book stays lowered by one: nothing restores it. *)
Theorem checkoutBook_patron_update_fault_keeps_the_decrement :
  forall (req : Js.object) (d : Db) (fs : list bool),
    lend_args_ok req = true ->
    can_checkout (patron_of req) (isbn_of req) d = true ->
    (forall n, copies (isbn_of req) d = Some n -> n <= 2 ^ 53) ->
    LendingLibrary.checkoutBook req
      (mkWorld d (false :: false :: false :: true :: fs))
    = (Returned (errResult "Issue checking out this book" BAD_REQ),
       mkWorld (add_copies (isbn_of req) (-1) d) fs).
Proof.
  intros req d fs Hargs Hcan Hmax.
  rewrite <- (dec_copies_exact _ _ _ Hmax Hcan).
  destruct (lend_args_ok_fields req Hargs) as [Hp Hi].
  unfold LendingLibrary.checkoutBook, try_catch at 1. cbn zeta.
  rewrite Hp, Hi. fold (patron_of req) (isbn_of req).
  unfold can_checkout in Hcan. rewrite existsb_held in Hcan.
  unfold LibraryDao.checkoutBook, Books.findOne, Patrons.findOne,
    Books.updateOne_inc, Patrons.updateOne_addToSet, try_catch, bind,
    store_call, ret.
  cbn [faults db].
  destruct (find _ (booksCollection d)) as [b |]; [| discriminate].
  apply andb_true_iff in Hcan as [Hpos Hfree].
  apply Z.ltb_lt in Hpos. apply negb_true_iff in Hfree.
  replace (nCopies b <=? 0) with false by (symmetry; apply Z.leb_gt; lia).
  cbn [faults db]. rewrite Hfree. reflexivity.
Qed.

Lemma return_refused_inv req d :
  lend_args_ok req = true ->
  existsb (String.eqb (isbn_of req)) (held (patron_of req) d) = false ->
  post (LendingLibrary.returnBook req) d
       (fun o d' => d' = d
                    /\ o = Returned (errResult "Issue returning this book"
                                               BAD_REQ)).
Proof.
  intros Hargs Hno.
  eapply post_consequence; [apply service_returnBook_spec |].
  unfold service_return_spec. rewrite Hargs.
  intros o d' (r & H & ->). inversion H; subst; auto; congruence.
Qed.

Lemma not_In_existsb i l : ~ In i l -> existsb (String.eqb i) l = false.
Proof.
  intros Hn. destruct (existsb _ l) eqn:He; [| reflexivity].
  apply existsb_exists in He as (x & Hx & He).
  apply String.eqb_eq in He. now subst.
Qed.

(** X15: under every schedule of store faults, a well-formed
    [returnBook] request for an isbn the patron does not hold (or of a
    patron without a record) fails with code BAD_REQ and leaves the
    store as it is. *)
Theorem returnBook_without_checkout_is_refused :
  forall (req : Js.object) (w : World),
    lend_args_ok req = true ->
    ~ In (isbn_of req) (held (patron_of req) (db w)) ->
    fst (LendingLibrary.returnBook req w)
    = Returned (errResult "Issue returning this book" BAD_REQ)
    /\ db (snd (LendingLibrary.returnBook req w)) = db w.
Proof.
  intros req w Hargs Hno. apply not_In_existsb in Hno.
  destruct (post_run _ _ w (return_refused_inv req _ Hargs Hno)) as [H1 H2].
  now split.
Qed.

Lemma return_ok_args req w :
  fst (LendingLibrary.returnBook req w) = Returned (okResult tt) ->
  lend_args_ok req = true
  /\ existsb (String.eqb (isbn_of req)) (held (patron_of req) (db w)) = true.
Proof.
  intros Hok.
  pose proof (post_run _ _ w (service_returnBook_spec req (db w))) as H.
  unfold service_return_spec in H. rewrite Hok in H.
  destruct (lend_args_ok req).
  - destruct H as (r & H & Hr). inversion H; subst; cbn in Hr;
      try discriminate; auto.
  - destruct H as (_ & msg & H). discriminate.
Qed.

(** X17: after a successful [returnBook], the same request again
    fails with code BAD_REQ and changes nothing. *)
Theorem second_returnBook_is_refused :
  forall (req : Js.object) (w : World),
    let r1 := LendingLibrary.returnBook req w in
    let r2 := LendingLibrary.returnBook req (snd r1) in
    fst r1 = Returned (okResult tt) ->
    fst r2 = Returned (errResult "Issue returning this book" BAD_REQ)
    /\ db (snd r2) = db (snd r1).
Proof.
  intros req w r1 r2 Hok.
  destruct (return_ok_args req w Hok) as [Hargs _].
  apply return_ok_inv in Hok. fold r1 in Hok.
  assert (Hno : existsb (String.eqb (isbn_of req))
                        (held (patron_of req) (db (snd r1))) = false).
  { rewrite Hok. apply not_In_existsb, held_remove_hold. }
  destruct (post_run _ _ (snd r1) (return_refused_inv req _ Hargs Hno))
    as [H1 H2].
  now split.
Qed.

Lemma succ_copies_exact i d :
  (forall n, copies i d = Some n -> 0 <= n < 2 ^ 53) ->
  inc_copies i 1 d = add_copies i 1 d.
Proof.
  intros Hmax. apply inc_copies_exact. intros b Hb.
  specialize (Hmax (nCopies b)). unfold copies in Hmax. rewrite Hb in Hmax.
  specialize (Hmax eq_refl). lia.
Qed.



Lemma returnBook_no_fault req d :
  lend_args_ok req = true ->
  LendingLibrary.returnBook req (mkWorld d [])
  = if existsb (String.eqb (isbn_of req)) (held (patron_of req) d)
    then (Returned (okResult tt),
          mkWorld (remove_hold (patron_of req) (isbn_of req)
                     (inc_copies (isbn_of req) 1 d)) [])
    else (Returned (errResult "Issue returning this book" BAD_REQ),
          mkWorld d []).
Proof.
  intros Hargs. destruct (lend_args_ok_fields req Hargs) as [Hp Hi].
  unfold LendingLibrary.returnBook, try_catch at 1. cbn zeta.
  rewrite Hp, Hi. fold (patron_of req) (isbn_of req).
  rewrite existsb_held.
  unfold LibraryDao.returnBook, Patrons.findOne, Books.updateOne_inc,
    Patrons.updateOne_pull, try_catch, bind, store_call, ret.
  cbn [faults db].
  destruct (find _ (patronCollection d)) as [x |];
    [destruct (existsb _ (checkedOutBooks x)) |]; reflexivity.
Qed.

(** X14: when no store call fails, a well-formed [returnBook] request
    succeeds exactly when the patron holds the isbn. *)
Theorem returnBook_succeeds_exactly_when_held :
  forall (req : Js.object) (d : Db),
    lend_args_ok req = true ->
    (fst (LendingLibrary.returnBook req (mkWorld d []))
     = Returned (okResult tt)
     <-> In (isbn_of req) (held (patron_of req) d)).
Proof.
  intros req d Hargs. rewrite (returnBook_no_fault req d Hargs).
  destruct (existsb _ _) eqn:He; cbn; split; try reflexivity.
  - intros _. apply existsb_exists in He as (x & Hx & He).
    apply String.eqb_eq in He. now subst.
  - discriminate.
  - intros Hin.
    assert (existsb (String.eqb (isbn_of req)) (held (patron_of req) d) = true);
      [| congruence].
    apply existsb_exists. eexists. split; [exact Hin | apply String.eqb_refl].
Qed.

(** X18: when the patron holds the isbn, the book is stored with a
    count from 0 to 2^53 - 1 (or not stored), and the third store call
    of [returnBook] (the update of the patron) fails, the caller gets
    BAD_REQ, the count of the book stays raised by one and the patron
    still holds the isbn. *)
Theorem returnBook_patron_update_fault_keeps_the_increment :
  forall (req : Js.object) (d : Db) (fs : list bool),
    lend_args_ok req = true ->
    In (isbn_of req) (held (patron_of req) d) ->
    (forall n, copies (isbn_of req) d = Some n -> 0 <= n < 2 ^ 53) ->
    LendingLibrary.returnBook req (mkWorld d (false :: false :: true :: fs))
    = (Returned (errResult "Issue returning this book" BAD_REQ),
       mkWorld (add_copies (isbn_of req) 1 d) fs).
Proof.
  intros req d fs Hargs Hin Hmax.
  rewrite <- (succ_copies_exact _ _ Hmax).
  assert (Hheld : existsb (String.eqb (isbn_of req))
                          (held (patron_of req) d) = true).
  { apply existsb_exists. eexists. split; [exact Hin | apply String.eqb_refl]. }
  destruct (lend_args_ok_fields req Hargs) as [Hp Hi].
  unfold LendingLibrary.returnBook, try_catch at 1. cbn zeta.
  rewrite Hp, Hi. fold (patron_of req) (isbn_of req).
  rewrite existsb_held in Hheld.
  unfold LibraryDao.returnBook, Patrons.findOne, Books.updateOne_inc,
    Patrons.updateOne_pull, try_catch, bind, store_call, ret.
  cbn [faults db].
  destruct (find _ (patronCollection d)) as [x |]; [| discriminate].
  rewrite Hheld. reflexivity.
Qed.

(** Counting the records that satisfy [q] across an [updateOne]. *)
Lemma count_update_one {A} (p q : A -> bool) (f : A -> A) l x :
  find p l = Some x ->
  (List.length (filter q (update_one p f l)) + (if q x then 1 else 0)
   = List.length (filter q l) + (if q (f x) then 1 else 0))%nat.
Proof.
  induction l as [| y l IH]; cbn; [discriminate |].
  destruct (p y) eqn:Hp.
  - intros [= ->]. cbn. destruct (q x), (q (f x)); cbn; lia.
  - intros Hf. specialize (IH Hf). cbn. destruct (q y); cbn; lia.
Qed.

Lemma holders_add_hold p i d :
  existsb (String.eqb i) (held p d) = false ->
  holders i (add_hold p i d) = S (holders i d).
Proof.
  unfold holders, add_hold, held. cbn [patronCollection]. intros Hfree.
  destruct (existsb _ (patronCollection d)) eqn:He; rewrite find_existsb in He.
  - destruct (find _ (patronCollection d)) as [x |] eqn:Hf; [| discriminate].
    pose proof (count_update_one (has_id p)
                  (fun x => existsb (String.eqb i) (checkedOutBooks x))
                  (fun x => mkPatron (id x) (addToSet i (checkedOutBooks x)))
                  _ x Hf) as H.
    cbn [checkedOutBooks] in H. rewrite Hfree in H.
    unfold addToSet in H at 2. rewrite Hfree in H.
    rewrite existsb_app in H. cbn in H. rewrite String.eqb_refl in H.
    rewrite orb_true_r in H. lia.
  - rewrite filter_app, length_app. cbn. rewrite String.eqb_refl. cbn. lia.
Qed.

Lemma holders_remove_hold p i d :
  existsb (String.eqb i) (held p d) = true ->
  S (holders i (remove_hold p i d)) = holders i d.
Proof.
  unfold holders, remove_hold, held. cbn [patronCollection]. intros Hheld.
  destruct (find _ (patronCollection d)) as [x |] eqn:Hf; [| discriminate].
  pose proof (count_update_one (has_id p)
                (fun x => existsb (String.eqb i) (checkedOutBooks x))
                (fun x => mkPatron (id x) (pull i (checkedOutBooks x)))
                _ x Hf) as H.
  cbn [checkedOutBooks] in H. rewrite Hheld in H.
  rewrite (not_In_existsb i (pull i _) (pull_not_In i _)) in H. lia.
Qed.

(** X19: on a book stored with a count from 0 to 2^53 - 1 (or not
    stored), a successful [checkoutBook] raises by one the number of
    patron records holding the isbn and lowers the count of the book by
    one; a successful [returnBook] lowers the first by one and raises
    the second by one. *)
Theorem lending_moves_one_copy_between_book_and_holders :
  forall (req : Js.object) (w : World),
    let i := isbn_of req in
    (forall n, copies i (db w) = Some n -> 0 <= n < 2 ^ 53) ->
    (fst (LendingLibrary.checkoutBook req w) = Returned (okResult tt) ->
     let d' := db (snd (LendingLibrary.checkoutBook req w)) in
     holders i d' = S (holders i (db w))
     /\ copies i d' = option_map (fun n => n - 1) (copies i (db w)))
    /\ (fst (LendingLibrary.returnBook req w) = Returned (okResult tt) ->
        let d' := db (snd (LendingLibrary.returnBook req w)) in
        S (holders i d') = holders i (db w)
        /\ copies i d' = option_map (fun n => n + 1) (copies i (db w))).
Proof.
  intros req w i Hmax. subst i. split.
  - intros Hok d'. subst d'.
    apply checkout_ok_inv in Hok as [(b & Hb & Hpos & Hfree) ->]. split.
    + rewrite holders_add_hold; [reflexivity | exact Hfree].
    + change (copies ?i (add_hold ?p ?j ?d)) with (copies i d).
      rewrite copies_inc_copies.
      destruct (copies _ _) as [n |] eqn:Hn; cbn [option_map]; [| auto].
      specialize (Hmax n eq_refl). rewrite binary64_small by lia.
      reflexivity.
  - intros Hok d'. subst d'.
    destruct (return_ok_args req w Hok) as [_ Hheld].
    apply return_ok_inv in Hok as ->. split.
    + rewrite holders_remove_hold; [reflexivity | exact Hheld].
    + change (copies ?i (remove_hold ?p ?j ?d)) with (copies i d).
      rewrite copies_inc_copies.
      destruct (copies _ _) as [n |] eqn:Hn; cbn [option_map]; [| auto].
      specialize (Hmax n eq_refl). rewrite binary64_small by lia.
      reflexivity.
Qed.

(** ** findBooks *)

(** X20: under every schedule of store faults, [findBooks] leaves
    the store as it is and returns a result; the result never has code
    BAD_TYPE, and has code BAD_REQ only when the search has no
    word. *)
Theorem findBooks_only_reads :
  forall (req : Js.object) (w : World),
    db (snd (LendingLibrary.findBooks req w)) = db w
    /\ exists r, fst (LendingLibrary.findBooks req w) = Returned r
                 /\ err_code r <> Some BAD_TYPE
                 /\ (err_code r = Some BAD_REQ ->
                     match_words (LendingLibrary.str_of (Js.get req "search"))
                     = []).
Proof.
  intros req w. split.
  - apply (post_run _ _ w (service_findBooks_spec req (db w))).
  - destruct (findBooks_codes req w) as (r & Hr & Hc). exists r.
    split; [exact Hr |].
    destruct Hc as [H | [H | [H | [H Hw]]]]; rewrite H; split;
      try discriminate; auto.
Qed.

(** X21: a [findBooks] request whose search field is missing, is not
    a string or is the empty string fails with code MISSING, without a
    store call. *)
Theorem findBooks_without_search_string_is_MISSING :
  forall (req : Js.object) (w : World),
    (forall s, s <> "" -> Js.get req "search" <> Js.Str s) ->
    LendingLibrary.findBooks req w
    = (Returned (errResult "Search field is missing or not a string" MISSING),
       w).
Proof.
  intros req w Hs. unfold LendingLibrary.findBooks, try_catch.
  replace (negb (Js.truthy (Js.get req "search")) || _) with true;
    [reflexivity |].
  destruct (Js.get req "search") as [| | b | n | s | l |] eqn:Hg;
    cbn [LendingLibrary.is_type Js.typeof negb]; rewrite ?orb_true_r;
    try reflexivity.
  destruct s as [| c s]; [reflexivity |].
  exfalso. now apply (Hs (String c s)).
Qed.

(** X22: a [findBooks] request whose search is a non-empty string
    without a run of two word characters fails with code BAD_REQ,
    without a store call. *)
Theorem findBooks_without_search_word_is_BAD_REQ :
  forall (req : Js.object) (w : World) (s : string),
    Js.get req "search" = Js.Str s ->
    s <> "" ->
    match_words s = [] ->
    LendingLibrary.findBooks req w
    = (Returned (errResult "No valid search words found" BAD_REQ), w).
Proof.
  intros req w s Hg Hs Hw. unfold LendingLibrary.findBooks, try_catch.
  rewrite Hg. cbn [Js.truthy LendingLibrary.is_type Js.typeof
                   LendingLibrary.str_of].
  destruct s as [| c s]; [contradiction |].
  cbn [String.eqb negb orb]. cbv zeta. rewrite Hw. reflexivity.
Qed.

(** *** The tokens of a search *)

Lemma all_chars_of_list p l :
  all_chars p (string_of_list_ascii l) = forallb p l.
Proof. induction l as [| c l IH]; cbn; [| rewrite IH]; reflexivity. Qed.

Lemma length_of_list l :
  String.length (string_of_list_ascii l) = List.length l.
Proof. induction l as [| c l IH]; cbn; [| rewrite IH]; reflexivity. Qed.

Lemma forallb_reverse {A} (p : A -> bool) l : forallb p (rev l) = forallb p l.
Proof.
  induction l as [| x l IH]; cbn; [reflexivity |].
  rewrite forallb_app, IH. cbn. rewrite andb_true_r. apply andb_comm.
Qed.

Lemma flush_run_words run w :
  forallb is_word run = true ->
  In w (flush_run run) ->
  all_chars is_word w = true /\ (2 <= String.length w)%nat.
Proof.
  unfold flush_run. intros Hrun Hin.
  destruct (Nat.leb_spec 2 (List.length run)) as [Hlen | Hlen]; [| destruct Hin].
  destruct Hin as [<- | []].
  rewrite all_chars_of_list, length_of_list, length_rev, forallb_reverse.
  auto.
Qed.

Lemma scan_words_words s : forall run w,
  forallb is_word run = true ->
  In w (scan_words s run) ->
  all_chars is_word w = true /\ (2 <= String.length w)%nat.
Proof.
  induction s as [| c s IH]; intros run w Hrun Hin; cbn in Hin.
  - now apply (flush_run_words run).
  - destruct (is_word c) eqn:Hc.
    + apply (IH (c :: run)); [cbn; now rewrite Hc | exact Hin].
    + apply in_app_or in Hin as [Hin | Hin].
      * now apply (flush_run_words run).
      * now apply (IH []).
Qed.

(** X23: every search word extracted from a search string consists
    of word characters only and has at least two of them. *)
Theorem search_words_are_words_of_two_characters_or_more :
  forall (s w : string),
    In w (match_words s) ->
    all_chars is_word w = true /\ (2 <= String.length w)%nat.
Proof. intros s w. now apply scan_words_words. Qed.

Lemma scan_words_word w : forall run,
  all_chars is_word w = true ->
  scan_words w run
  = flush_run (rev (list_ascii_of_string w) ++ run).
Proof.
  induction w as [| c w IH]; intros run Hw; cbn in *; [reflexivity |].
  apply andb_true_iff in Hw as [Hc Hw]. rewrite Hc, IH by exact Hw.
  now rewrite <- app_assoc.
Qed.

Lemma match_words_word w :
  all_chars is_word w = true ->
  (2 <= String.length w)%nat ->
  match_words w = [w].
Proof.
  intros Hw Hlen. unfold match_words.
  rewrite scan_words_word by exact Hw. rewrite app_nil_r. unfold flush_run.
  rewrite length_rev, rev_involutive, string_of_list_ascii_of_string.
  rewrite <- (length_of_list (list_ascii_of_string w)),
    string_of_list_ascii_of_string.
  destruct (Nat.leb_spec 2 (String.length w)); [reflexivity | lia].
Qed.

(** X24: a string of two or more word characters is its own and only
    search word. *)
Theorem a_word_is_its_only_search_word :
  forall (w : string),
    all_chars is_word w = true ->
    (2 <= String.length w)%nat ->
    match_words w = [w].
Proof. exact match_words_word. Qed.

Lemma cursor_arg_of_Z z : 0 <= z -> cursor_arg (Js.of_Z z) = Some (Z.to_nat z).
Proof.
  intros Hz. unfold cursor_arg, Js.of_Z, Js.to_integer, inject_Z. cbn.
  rewrite Z.mod_1_r, Z.div_1_r. cbn.
  destruct (Z.leb_spec 0 z); [reflexivity | lia].
Qed.

Lemma ge_of_Z z : 0 <= z -> Js.ge (Js.of_Z z) (Js.of_Z 0) = true.
Proof.
  intros Hz. unfold Js.ge, Js.le, Js.of_Z, Qle_bool, inject_Z. cbn.
  apply Z.leb_le. lia.
Qed.

(** X25: when no store call fails, a search of one word with index
    [index >= 0] and count [count > 0] returns, of the stored books
    that contain the word without regard to case in the title or in an
    author, sorted by title, the [count] books that follow the first
    [index]. *)
Theorem findBooks_one_word_page :
  forall (req : Js.object) (d : Db) (w : string) (index count : Z),
    Js.get req "search" = Js.Str w ->
    all_chars is_word w = true ->
    (2 <= String.length w)%nat ->
    Js.get req "index" = Js.Num (Js.of_Z index) ->
    Js.get req "count" = Js.Num (Js.of_Z count) ->
    0 <= index ->
    0 < count ->
    fst (LendingLibrary.findBooks req (mkWorld d []))
    = Returned (okResult
        (firstn (Z.to_nat count)
           (skipn (Z.to_nat index)
              (sort_by_title
                 (filter (spec_matches [w]) (booksCollection d)))))).
Proof.
  intros req d w index count Hs Hw Hlen Hi Hc Hindex Hcount.
  pose proof (findBooksBySearch_single_word w (Js.of_Z index) (Js.of_Z count)
                _ _ d Hw (cursor_arg_of_Z index Hindex)
                (cursor_arg_of_Z count (Z.lt_le_incl _ _ Hcount))) as Hdao.
  unfold LendingLibrary.findBooks, try_catch at 1.
  rewrite Hs, Hi, Hc.
  cbn [LendingLibrary.is_type Js.typeof LendingLibrary.str_of
       LendingLibrary.num_of Js.truthy andb].
  destruct w as [| c w]; [cbn in Hlen; lia |].
  cbn [String.eqb negb orb]. cbv zeta.
  rewrite (match_words_word _ Hw Hlen).
  rewrite !ge_of_Z by lia. cbn [List.length Nat.eqb].
  unfold bind at 1.
  destruct (LibraryDao.findBooksBySearch _ _ _ _) as [[r | e] w'];
    cbn [fst] in Hdao; [| discriminate].
  injection Hdao as ->. unfold ret. cbn [fst]. do 2 f_equal.
  unfold limit. destruct (Z.to_nat count) eqn:Hn; [lia | reflexivity].
Qed.

Lemma findBooks_default_run req d w :
  Js.get req "search" = Js.Str w ->
  all_chars is_word w = true ->
  (2 <= String.length w)%nat ->
  Js.has req "index" = false ->
  Js.has req "count" = false ->
  fst (LendingLibrary.findBooks req (mkWorld d []))
  = Returned (okResult
      (firstn 5
         (sort_by_title (filter (spec_matches [w]) (booksCollection d))))).
Proof.
  intros Hs Hw Hlen Hi Hc.
  pose proof (findBooksBySearch_single_word w (Js.of_Z 0) (Js.of_Z 5)
                0%nat 5%nat d Hw eq_refl eq_refl) as Hdao.
  assert (Hgi : Js.get req "index" = Js.Undefined).
  { unfold Js.has in Hi. unfold Js.get.
    destruct (Js.own req "index"); [discriminate | reflexivity]. }
  assert (Hgc : Js.get req "count" = Js.Undefined).
  { unfold Js.has in Hc. unfold Js.get.
    destruct (Js.own req "count"); [discriminate | reflexivity]. }
  unfold LendingLibrary.findBooks, try_catch at 1.
  rewrite Hs, Hgi, Hgc.
  cbn [LendingLibrary.is_type Js.typeof LendingLibrary.str_of
       LendingLibrary.num_of Js.truthy andb].
  destruct w as [| c w]; [cbn in Hlen; lia |].
  cbn [String.eqb negb orb]. cbv zeta.
  rewrite (match_words_word _ Hw Hlen).
  cbn [List.length Nat.eqb].
  unfold bind at 1. unfold LendingLibrary.DEFAULT_COUNT.
  destruct (LibraryDao.findBooksBySearch _ _ _ _) as [[r | e] w'];
    cbn [fst] in Hdao; [| discriminate].
  injection Hdao as ->. reflexivity.
Qed.

(** X26: when no store call fails, a search of one word without
    index and count returns the first five, sorted by title, of the
    stored books that contain the word in the title or in an
    author. *)
Theorem findBooks_default_page :
  forall (req : Js.object) (d : Db) (w : string),
    Js.get req "search" = Js.Str w ->
    all_chars is_word w = true ->
    (2 <= String.length w)%nat ->
    Js.has req "index" = false ->
    Js.has req "count" = false ->
    fst (LendingLibrary.findBooks req (mkWorld d []))
    = Returned (okResult
        (firstn 5
           (sort_by_title (filter (spec_matches [w]) (booksCollection d))))).
Proof. exact findBooks_default_run. Qed.

Lemma LocallySorted_tail {A} (R : A -> A -> Prop) x l :
  LocallySorted R (x :: l) -> LocallySorted R l.
Proof. intros H. inversion H; subst; [constructor | assumption]. Qed.

Lemma LocallySorted_skipn {A} (R : A -> A -> Prop) n l :
  LocallySorted R l -> LocallySorted R (skipn n l).
Proof.
  revert l. induction n as [| n IH]; intros l Hl; [exact Hl |].
  destruct l as [| x l]; [constructor |]. cbn.
  apply IH. now apply LocallySorted_tail in Hl.
Qed.

Lemma LocallySorted_firstn {A} (R : A -> A -> Prop) n l :
  LocallySorted R l -> LocallySorted R (firstn n l).
Proof.
  revert n. induction l as [| x l IH]; intros n Hl.
  - rewrite firstn_nil. constructor.
  - destruct n as [| n]; [constructor |]. cbn.
    specialize (IH n (LocallySorted_tail _ _ _ Hl)).
    destruct l as [| y l]; [rewrite firstn_nil; constructor |].
    destruct n as [| n]; [constructor |]. cbn in *.
    constructor; [exact IH |]. now inversion Hl.
Qed.

Lemma LocallySorted_limit {A} (R : A -> A -> Prop) n l :
  LocallySorted R l -> LocallySorted R (limit n l).
Proof.
  intros Hl. destruct n; [exact Hl | now apply LocallySorted_firstn].
Qed.

Lemma incl_limit {A} n (l : list A) : incl (limit n l) l.
Proof.
  destruct n as [| n]; [apply incl_refl |]. intros x Hx.
  rewrite <- (firstn_skipn (S n) l). apply in_or_app. now left.
Qed.

Lemma incl_skipn {A} n (l : list A) : incl (skipn n l) l.
Proof.
  intros x Hx. rewrite <- (firstn_skipn n l). apply in_or_app. now right.
Qed.

Lemma rebuild_books l :
  map (fun doc => mkXBook (isbn doc) (title doc) (pages doc) (authors doc)
                    (publisher doc) (year doc) (nCopies doc)) l = l.
Proof.
  rewrite <- (map_id l) at 2. apply map_ext. now intros [].
Qed.

Lemma dao_findBooksBySearch_page ws index count d :
  post (LibraryDao.findBooksBySearch ws index count) d
       (fun o _ => forall l, o = Returned (okResult l) ->
                   LocallySorted title_le l /\ incl l (booksCollection d)).
Proof.
  unfold LibraryDao.findBooksBySearch, Books.find_page.
  exec; try discriminate.
  all: destruct (LibraryDao.multiWordSearch ws), (cursor_arg index),
         (cursor_arg count); cbn; exec; try discriminate.
  intros l [= <-]. rewrite rebuild_books. split.
  - apply LocallySorted_limit, LocallySorted_skipn, sort_by_title_sorted.
  - eapply incl_tran; [apply incl_limit |].
    eapply incl_tran; [apply incl_skipn |].
    intros b Hb. apply (Permutation_in _ (Permutation_sym (sort_by_title_perm _)))
      in Hb. now apply filter_In in Hb.
Qed.

(** X27: under every schedule of store faults, the books of a
    successful [findBooks] are stored books, in ascending order of
    title. *)
Theorem findBooks_returns_stored_books_sorted_by_title :
  forall (req : Js.object) (w : World) (l : list XBook),
    fst (LendingLibrary.findBooks req w) = Returned (okResult l) ->
    LocallySorted title_le l /\ incl l (booksCollection (db w)).
Proof.
  intros req w l.
  apply (post_run (LendingLibrary.findBooks req)
           (fun o _ => forall l, o = Returned (okResult l) ->
                       LocallySorted title_le l
                       /\ incl l (booksCollection (db w))) w).
  unfold LendingLibrary.findBooks.
  apply post_try_catch.
  destruct (_ || _); [apply post_ret; discriminate |]. cbn zeta.
  destruct (_ =? _)%nat; [apply post_ret; discriminate |].
  apply post_bind.
  eapply post_consequence; [apply dao_findBooksBySearch_page |].
  intros o d' H.
  destruct o as [r | e]; [apply post_ret; exact H |].
  intros l0 Hl0. discriminate.
Qed.

(** ** addBook followed by findBooks *)

Lemma validateBook_title y req book :
  LendingLibrary.validateBook y req = okResult book ->
  title book = LendingLibrary.str_of (Js.get req "title").
Proof.
  unfold LendingLibrary.validateBook. intros H. walk_checks H.
  now injection H as <-.
Qed.

(** X28: when no store call fails, a book added under a new isbn is
    among the books found by a search for a word of its title, provided
    fewer than five stored books matched that word before. *)
Theorem added_book_is_found_by_a_word_of_its_title :
  forall (y : Z) (req : Js.object) (d : Db) (book : XBook) (w : string),
    LendingLibrary.validateBook y req = okResult book ->
    find (has_isbn (isbn book)) (booksCollection d) = None ->
    all_chars is_word w = true ->
    (2 <= String.length w)%nat ->
    contains_ci w (title book) = true ->
    (List.length (filter (spec_matches [w]) (booksCollection d)) < 5)%nat ->
    exists l,
      fst (LendingLibrary.findBooks [("search", Js.Str w)]
             (snd (LendingLibrary.addBook y req (mkWorld d []))))
      = Returned (okResult l)
      /\ In book l.
Proof.
  intros y req d book w Hv Hfresh Hw Hlen Hin Hfew.
  rewrite (addBook_no_fault y req d book Hv), Hfresh. cbn [snd].
  eexists. split.
  - apply (findBooks_default_run [("search", Js.Str w)] _ w);
      auto; reflexivity.
  - cbn [insert_book booksCollection]. rewrite filter_app. cbn [filter].
    replace (spec_matches [w] book) with true
      by (unfold spec_matches; cbn; now rewrite Hin).
    rewrite firstn_all2.
    + apply (Permutation_in _ (sort_by_title_perm _)).
      apply in_or_app. right. now left.
    + rewrite <- (Permutation_length (sort_by_title_perm _)), length_app.
      cbn. lia.
Qed.

(** ** compareBook *)

Lemma authors_differ_false_iff a0 a1 :
  LendingLibrary.authors_differ a0 a1 = false
  <-> exists rest, a1 = (a0 ++ rest)%list.
Proof.
  revert a1. induction a0 as [| a a0 IH]; intros a1; cbn.
  - split; [eauto | reflexivity].
  - destruct a1 as [| b a1].
    + split; [discriminate | intros [rest H]; discriminate].
    + rewrite orb_false_iff, negb_false_iff, String.eqb_eq, IH. split.
      * intros [-> [rest ->]]. eauto.
      * intros [rest [= -> ->]]. eauto.
Qed.

(** X29: [compareBook] finds no difference exactly when the titles,
    pages and publishers are equal, the years are equal as numbers, and
    the authors of the first book are the first authors of the second:
    authors that the second book has in addition go unnoticed. *)
Theorem compareBook_finds_no_difference_iff :
  forall (book0 book1 : XBook),
    LendingLibrary.compareBook book0 book1 = None
    <-> title book0 = title book1
        /\ (exists more, authors book1 = (authors book0 ++ more)%list)
        /\ pages book0 = pages book1
        /\ LendingLibrary.num_differ (year book0) (year book1) = false
        /\ publisher book0 = publisher book1.
Proof.
  intros book0 book1. unfold LendingLibrary.compareBook.
  rewrite <- authors_differ_false_iff.
  destruct (String.eqb_spec (title book0) (title book1)) as [Ht | Ht];
    cbn [negb]; [| split; [discriminate | tauto]].
  destruct (LendingLibrary.authors_differ _ _);
    [split; [discriminate | intros (_ & H & _); discriminate] |].
  destruct (Z.eqb_spec (pages book0) (pages book1)) as [Hp | Hp];
    cbn [negb]; [| split; [discriminate | tauto]].
  destruct (LendingLibrary.num_differ _ _);
    [split; [discriminate | intros (_ & _ & _ & H & _); discriminate] |].
  destruct (String.eqb_spec (publisher book0) (publisher book1)) as [Hq | Hq];
    cbn [negb]; [tauto | split; [discriminate | tauto]].
Qed.

(** ** clear *)

(** X30: [clear] always returns success, also when the DAO has
    reported a store fault; the store is then unchanged, or has lost
    its books only, or is empty, and it is empty when neither of the
    next two store calls fails. *)
Theorem clear_always_reports_success :
  forall (w : World),
    let d' := db (snd (LendingLibrary.clear w)) in
    fst (LendingLibrary.clear w) = Returned (okResult tt)
    /\ (d' = db w \/ d' = mkDb [] (patronCollection (db w)) \/ d' = empty_db)
    /\ (hd false (faults w) = false ->
        hd false (tl (faults w)) = false -> d' = empty_db).
Proof.
  intros w d'. subst d'.
  destruct (post_run _ _ w (service_clear_spec (db w))) as [Hr Hd].
  repeat split; [exact Hr | exact Hd |].
  destruct w as [d fs].
  unfold LendingLibrary.clear, LibraryDao.clearDatabase, Books.deleteMany,
    Patrons.deleteMany, try_catch, bind, store_call, ret.
  cbn [faults db].
  destruct fs as [| [|] [| [|] fs]]; cbn; intros H1 H2;
    reflexivity || discriminate.
Qed.

(** ** Runs of the further properties *)

(** A stored count, read off a concrete store, is within the bound. *)
Ltac count_in_bound :=
  let n := fresh "n" in
  let H := fresh "H" in
  intros n H; vm_compute in H; injection H as <-;
  repeat split; (apply Z.leb_le || apply Z.ltb_lt); reflexivity.

Lemma addBook_missing_field_is_MISSING_witness :
  LendingLibrary.addBook 2024 [] (mkWorld empty_db [])
  = (Returned (errResult "Missing required field: ${field}" MISSING),
     mkWorld empty_db []).
Proof.
  apply (addBook_missing_field_is_MISSING 2024 [] (mkWorld empty_db []) "isbn");
    [left; reflexivity | reflexivity].
Defined.

Lemma addBook_request_error_makes_no_store_call_witness :
  snd (LendingLibrary.addBook 2024
         (counts_req (Js.Num (Js.of_Z 0)) (Js.Num (Js.of_Z 1)))
         (mkWorld (hobbit_db 2) [true]))
  = mkWorld (hobbit_db 2) [true].
Proof.
  apply (addBook_request_error_makes_no_store_call 2024 _ _
           "Pages must be a positive integer" BAD_TYPE);
    [reflexivity | discriminate].
Defined.

Lemma addBook_valid_request_succeeds_without_fault_witness :
  fst (LendingLibrary.addBook 2024 (hobbit_req 3) (mkWorld (hobbit_db 2) []))
  = Returned (okResult (hobbit 3))
  /\ db (snd (LendingLibrary.addBook 2024 (hobbit_req 3)
                (mkWorld (hobbit_db 2) [])))
     = hobbit_db 5.
Proof.
  apply (addBook_valid_request_succeeds_without_fault
           2024 (hobbit_req 3) (hobbit_db 2) (hobbit 3));
    [reflexivity | count_in_bound].
Defined.

Lemma addBook_on_stored_isbn_only_adds_copies_witness :
  find (has_isbn hobbit_isbn)
    (booksCollection
       (db (snd (LendingLibrary.addBook 2024 (hobbit_req 3)
                   (mkWorld (hobbit_db 2) [])))))
  = Some (hobbit 5).
Proof.
  apply (addBook_on_stored_isbn_only_adds_copies
           2024 (hobbit_req 3) (mkWorld (hobbit_db 2) [])
           (hobbit 3) (hobbit 2));
    try reflexivity; apply Z.leb_le; reflexivity.
Defined.

Lemma addBook_takes_any_number_in_range_as_year_witness :
  LendingLibrary.validateBook 2024
    (("year", Js.Num (Js.Fin (3875 # 2))) :: hobbit_req 1)
  = okResult (mkXBook hobbit_isbn "The Hobbit" 310 ["J.R.R. Tolkien"]
                      "Allen and Unwin" (Js.Fin (3875 # 2)) 1).
Proof.
  exact (addBook_takes_any_number_in_range_as_year
           2024 (hobbit_req 1) (hobbit 1) (Js.Fin (3875 # 2))
           eq_refl eq_refl eq_refl).
Defined.

Lemma checkoutBook_succeeds_exactly_when_allowed_witness :
  fst (LendingLibrary.checkoutBook (lend_req "p1" hobbit_isbn)
         (mkWorld (hobbit_db 2) []))
  = Returned (okResult tt)
  <-> can_checkout "p1" hobbit_isbn (hobbit_db 2) = true.
Proof.
  exact (checkoutBook_succeeds_exactly_when_allowed
           (lend_req "p1" hobbit_isbn) (hobbit_db 2) eq_refl).
Defined.

Lemma checkoutBook_refused_when_not_allowed_witness :
  fst (LendingLibrary.checkoutBook (lend_req "p2" hobbit_isbn)
         (mkWorld (reached last_copy_out []) [false; true]))
  = Returned (errResult "Issue checking out this book" BAD_REQ)
  /\ db (snd (LendingLibrary.checkoutBook (lend_req "p2" hobbit_isbn)
                (mkWorld (reached last_copy_out []) [false; true])))
     = reached last_copy_out [].
Proof.
  exact (checkoutBook_refused_when_not_allowed
           (lend_req "p2" hobbit_isbn)
           (mkWorld (reached last_copy_out []) [false; true])
           eq_refl eq_refl).
Defined.

Lemma checkoutBook_success_effect_witness :
  (0 < 2)
  /\ copies hobbit_isbn
       (db (snd (LendingLibrary.checkoutBook (lend_req "p1" hobbit_isbn)
                   (mkWorld (hobbit_db 2) []))))
     = Some 1.
Proof.
  pose proof (checkoutBook_success_effect
                (lend_req "p1" hobbit_isbn) (mkWorld (hobbit_db 2) []) 2
                eq_refl eq_refl) as H.
  split; [apply H | apply H]; apply Z.leb_le; reflexivity.
Defined.

Lemma second_checkoutBook_is_refused_witness :
  fst (LendingLibrary.checkoutBook (lend_req "p1" hobbit_isbn)
         (snd (LendingLibrary.checkoutBook (lend_req "p1" hobbit_isbn)
                 (mkWorld (hobbit_db 2) []))))
  = Returned (errResult "Issue checking out this book" BAD_REQ)
  /\ db (snd (LendingLibrary.checkoutBook (lend_req "p1" hobbit_isbn)
                (snd (LendingLibrary.checkoutBook (lend_req "p1" hobbit_isbn)
                        (mkWorld (hobbit_db 2) [])))))
     = db (snd (LendingLibrary.checkoutBook (lend_req "p1" hobbit_isbn)
                  (mkWorld (hobbit_db 2) []))).
Proof.
  exact (second_checkoutBook_is_refused
           (lend_req "p1" hobbit_isbn) (mkWorld (hobbit_db 2) []) eq_refl).
Defined.

Lemma failed_checkoutBook_adds_no_hold_witness :
  patronCollection
    (db (snd (LendingLibrary.checkoutBook (lend_req "p1" hobbit_isbn)
                (mkWorld (hobbit_db 2) [false; false; false; true]))))
  = [].
Proof.
  apply (failed_checkoutBook_adds_no_hold (lend_req "p1" hobbit_isbn)
           (mkWorld (hobbit_db 2) [false; false; false; true]));
    [discriminate | count_in_bound].
Defined.

Lemma checkoutBook_patron_update_fault_keeps_the_decrement_witness :
  LendingLibrary.checkoutBook (lend_req "p1" hobbit_isbn)
    (mkWorld (hobbit_db 2) [false; false; false; true])
  = (Returned (errResult "Issue checking out this book" BAD_REQ),
     mkWorld (hobbit_db 1) []).
Proof.
  apply (checkoutBook_patron_update_fault_keeps_the_decrement
           (lend_req "p1" hobbit_isbn) (hobbit_db 2) []);
    [reflexivity | reflexivity | count_in_bound].
Defined.

Lemma returnBook_succeeds_exactly_when_held_witness :
  fst (LendingLibrary.returnBook (lend_req "p1" hobbit_isbn)
         (mkWorld (reached last_copy_out []) []))
  = Returned (okResult tt)
  <-> In hobbit_isbn (held "p1" (reached last_copy_out [])).
Proof.
  exact (returnBook_succeeds_exactly_when_held
           (lend_req "p1" hobbit_isbn) (reached last_copy_out []) eq_refl).
Defined.

Lemma returnBook_without_checkout_is_refused_witness :
  fst (LendingLibrary.returnBook (lend_req "p1" hobbit_isbn)
         (mkWorld (hobbit_db 2) []))
  = Returned (errResult "Issue returning this book" BAD_REQ)
  /\ db (snd (LendingLibrary.returnBook (lend_req "p1" hobbit_isbn)
                (mkWorld (hobbit_db 2) [])))
     = hobbit_db 2.
Proof.
  apply (returnBook_without_checkout_is_refused
           (lend_req "p1" hobbit_isbn) (mkWorld (hobbit_db 2) []));
    [reflexivity | intros []].
Defined.


Lemma second_returnBook_is_refused_witness :
  fst (LendingLibrary.returnBook (lend_req "p1" hobbit_isbn)
         (snd (LendingLibrary.returnBook (lend_req "p1" hobbit_isbn)
                 (mkWorld (reached last_copy_out []) []))))
  = Returned (errResult "Issue returning this book" BAD_REQ)
  /\ db (snd (LendingLibrary.returnBook (lend_req "p1" hobbit_isbn)
                (snd (LendingLibrary.returnBook (lend_req "p1" hobbit_isbn)
                        (mkWorld (reached last_copy_out []) [])))))
     = db (snd (LendingLibrary.returnBook (lend_req "p1" hobbit_isbn)
                  (mkWorld (reached last_copy_out []) []))).
Proof.
  exact (second_returnBook_is_refused
           (lend_req "p1" hobbit_isbn)
           (mkWorld (reached last_copy_out []) []) eq_refl).
Defined.

Lemma returnBook_patron_update_fault_keeps_the_increment_witness :
  LendingLibrary.returnBook (lend_req "p1" hobbit_isbn)
    (mkWorld (reached last_copy_out []) [false; false; true])
  = (Returned (errResult "Issue returning this book" BAD_REQ),
     mkWorld (mkDb [hobbit 1] [mkPatron "p1" [hobbit_isbn]]) []).
Proof.
  apply (returnBook_patron_update_fault_keeps_the_increment
           (lend_req "p1" hobbit_isbn) (reached last_copy_out []) []);
    [reflexivity | left; reflexivity | count_in_bound].
Defined.

Lemma lending_moves_one_copy_between_book_and_holders_witness :
  holders hobbit_isbn
    (db (snd (LendingLibrary.checkoutBook (lend_req "p1" hobbit_isbn)
                (mkWorld (hobbit_db 2) []))))
  = 1%nat
  /\ copies hobbit_isbn
       (db (snd (LendingLibrary.checkoutBook (lend_req "p1" hobbit_isbn)
                   (mkWorld (hobbit_db 2) []))))
     = Some 1.
Proof.
  apply (lending_moves_one_copy_between_book_and_holders
           (lend_req "p1" hobbit_isbn) (mkWorld (hobbit_db 2) []));
    [count_in_bound | reflexivity].
Defined.

Lemma findBooks_only_reads_witness :
  db (snd (LendingLibrary.findBooks [("search", Js.Str "hobbit")]
             (mkWorld (hobbit_db 2) [true])))
  = hobbit_db 2.
Proof.
  exact (proj1 (findBooks_only_reads [("search", Js.Str "hobbit")]
                  (mkWorld (hobbit_db 2) [true]))).
Defined.

Lemma findBooks_without_search_string_is_MISSING_witness :
  LendingLibrary.findBooks [("search", Js.Str "")] (mkWorld (hobbit_db 2) [])
  = (Returned (errResult "Search field is missing or not a string" MISSING),
     mkWorld (hobbit_db 2) []).
Proof.
  apply (findBooks_without_search_string_is_MISSING
           [("search", Js.Str "")] (mkWorld (hobbit_db 2) [])).
  intros s Hs [= <-]. now apply Hs.
Defined.

Lemma findBooks_without_search_word_is_BAD_REQ_witness :
  LendingLibrary.findBooks [("search", Js.Str "a b")]
    (mkWorld (hobbit_db 2) [])
  = (Returned (errResult "No valid search words found" BAD_REQ),
     mkWorld (hobbit_db 2) []).
Proof.
  apply (findBooks_without_search_word_is_BAD_REQ
           [("search", Js.Str "a b")] (mkWorld (hobbit_db 2) []) "a b");
    [reflexivity | discriminate | reflexivity].
Defined.

Lemma search_words_are_words_of_two_characters_or_more_witness :
  all_chars is_word "hobbit" = true /\ (2 <= String.length "hobbit")%nat.
Proof.
  apply (search_words_are_words_of_two_characters_or_more
           "a hobbit, there" "hobbit").
  left. reflexivity.
Defined.

Lemma a_word_is_its_only_search_word_witness :
  match_words "hobbit" = ["hobbit"].
Proof.
  apply (a_word_is_its_only_search_word "hobbit");
    [reflexivity | cbn; repeat constructor].
Defined.

Lemma findBooks_one_word_page_witness :
  fst (LendingLibrary.findBooks
         [("search", Js.Str "hobbit"); ("index", Js.Num (Js.of_Z 0));
          ("count", Js.Num (Js.of_Z 1))]
         (mkWorld (hobbit_db 2) []))
  = Returned (okResult [hobbit 2]).
Proof.
  apply (findBooks_one_word_page _ (hobbit_db 2) "hobbit" 0 1);
    try reflexivity; try discriminate; cbn; repeat constructor.
Defined.

Lemma findBooks_default_page_witness :
  fst (LendingLibrary.findBooks [("search", Js.Str "hobbit")]
         (mkWorld (hobbit_db 2) []))
  = Returned (okResult [hobbit 2]).
Proof.
  apply (findBooks_default_page _ (hobbit_db 2) "hobbit");
    try reflexivity. cbn; repeat constructor.
Defined.

Lemma findBooks_returns_stored_books_sorted_by_title_witness :
  LocallySorted title_le [hobbit 2]
  /\ incl [hobbit 2] (booksCollection (hobbit_db 2)).
Proof.
  apply (findBooks_returns_stored_books_sorted_by_title
           [("search", Js.Str "hobbit")] (mkWorld (hobbit_db 2) [])).
  reflexivity.
Defined.

Lemma added_book_is_found_by_a_word_of_its_title_witness :
  exists l,
    fst (LendingLibrary.findBooks [("search", Js.Str "hobbit")]
           (snd (LendingLibrary.addBook 2024 (hobbit_req 1)
                   (mkWorld empty_db []))))
    = Returned (okResult l)
    /\ In (hobbit 1) l.
Proof.
  apply (added_book_is_found_by_a_word_of_its_title
           2024 (hobbit_req 1) empty_db (hobbit 1) "hobbit");
    try reflexivity; cbn; repeat constructor.
Defined.

Lemma compareBook_finds_no_difference_iff_witness :
  LendingLibrary.compareBook (hobbit 1) (hobbit 2) = None.
Proof.
  apply (proj2 (compareBook_finds_no_difference_iff (hobbit 1) (hobbit 2))).
  repeat split; try reflexivity. exists []. reflexivity.
Defined.

Lemma clear_always_reports_success_witness :
  db (snd (LendingLibrary.clear (mkWorld (hobbit_db 2) []))) = empty_db.
Proof.
  exact (proj2 (proj2 (clear_always_reports_success
                         (mkWorld (hobbit_db 2) [])))
               eq_refl eq_refl).
Defined.
